(** * bedrock_invoke.py: the inference-profile prober

    A shallow embedding of [src/bedrock_invoke.py] and the proofs of the
    properties its specification states.

    The script is straight-line glue around four remote collaborators
    (get_inference_profile, converse, invoke_model, get_caller_identity).
    It is modelled as a function of a [World]: the process environment, the
    ambient region and one stub per collaborator.  Running it yields the
    ordered list of observable events (lines printed on either stream and
    remote calls issued) together with the way [main] terminated. *)

From Stdlib Require Import List Strings.String Strings.Ascii Strings.Byte ZArith Bool Lia
  Sorting.Sorted.
Import ListNotations.
Local Open Scope string_scope.
Local Open Scope Z_scope.
Set Warnings "-register-all".

(** ** Python values *)

(** Exceptions deriving from [Exception].  [ClientError] is
    [botocore.exceptions.ClientError]; [OtherException] stands for every other
    subclass of [Exception], named by its class.  The fields carry what
    [str(e)] and [repr(e)] are computed from. *)
Inductive exn : Type :=
| ClientError (msg : string)
| OtherException (cls : string) (msg : string).

Definition is_ClientError (e : exn) : bool :=
  match e with ClientError _ => true | OtherException _ _ => false end.

(** The values a collaborator can answer with: the JSON-like objects boto3
    builds (numbers are integers here).  A dict keeps its insertion order. *)
Inductive pyval : Type :=
| PNone
| PBool (b : bool)
| PInt (z : Z)
| PStr (s : string)
| PBytes (b : list byte)
| PList (l : list pyval)
| PDict (d : list (string * pyval)).

(** What a call or an expression evaluates to: a value or a raised exception. *)
Inductive reply (A : Type) : Type :=
| Ok (a : A)
| Raise (e : exn).
Arguments Ok {A} a.
Arguments Raise {A} e.

Definition rbind {A B} (r : reply A) (f : A -> reply B) : reply B :=
  match r with Ok a => f a | Raise e => Raise e end.

(** The ["body"] entry of an invoke_model answer: a stream-like object with a
    [read] method (whose read may itself fail), or an already materialised
    value. *)
Inductive payload : Type :=
| Stream (content : reply (list byte))
| Value (v : pyval).

Definition LF : string := String (ascii_of_nat 10) EmptyString.

(** [s1 in s2] on strings. *)
Definition contains (sub s : string) : bool :=
  match index 0 sub s with Some _ => true | None => false end.

(** Truth value of an object, as [if x] and [not x] see it. *)
Definition truthy (v : pyval) : bool :=
  match v with
  | PNone => false
  | PBool b => b
  | PInt z => negb (z =? 0)
  | PStr s => negb (String.eqb s "")
  | PBytes b => match b with [] => false | _ => true end
  | PList l => match l with [] => false | _ => true end
  | PDict d => match d with [] => false | _ => true end
  end.

Definition truthy_str (o : option string) : bool :=
  match o with
  | None => false
  | Some s => negb (String.eqb s "")
  end.

(** [a or b] on two results of [os.getenv]. *)
Definition py_or (a b : option string) : option string :=
  if truthy_str a then a else b.

Fixpoint lookup {V} (k : string) (d : list (string * V)) : option V :=
  match d with
  | [] => None
  | (k', v) :: d' => if String.eqb k k' then Some v else lookup k d'
  end.

Definition type_name (v : pyval) : string :=
  match v with
  | PNone => "NoneType"
  | PBool _ => "bool"
  | PInt _ => "int"
  | PStr _ => "str"
  | PBytes _ => "bytes"
  | PList _ => "list"
  | PDict _ => "dict"
  end.

Definition AttributeError (v : pyval) (attr : string) : exn :=
  OtherException "AttributeError" (type_name v ++ "." ++ attr).
Definition TypeError (v : pyval) (what : string) : exn :=
  OtherException "TypeError" (type_name v ++ ": " ++ what).
Definition KeyError (k : string) : exn := OtherException "KeyError" k.
Definition UnicodeDecodeError : exn := OtherException "UnicodeDecodeError" "utf-8".

(** [v.get(k, dflt)]: only a dict has the method. *)
Definition py_get (v : pyval) (k : string) (dflt : pyval) : reply pyval :=
  match v with
  | PDict d => Ok (match lookup k d with Some x => x | None => dflt end)
  | _ => Raise (AttributeError v "get")
  end.

(** The elements [for p in v] runs through.  A str yields its characters
    (one-byte strings here; the loop of [main] only asks whether ["text"]
    occurs in them, which no single character satisfies), a dict its keys. *)
Definition py_iter (v : pyval) : reply (list pyval) :=
  match v with
  | PList l => Ok l
  | PDict d => Ok (map (fun kv => PStr (fst kv)) d)
  | PStr s => Ok (map (fun c => PStr (String c EmptyString)) (list_ascii_of_string s))
  | PBytes b => Ok (map (fun x => PInt (Z.of_N (Byte.to_N x))) b)
  | _ => Raise (TypeError v "object is not iterable")
  end.

Definition is_str (k : string) (v : pyval) : bool :=
  match v with PStr s => String.eqb s k | _ => false end.

(** [k in v] for a str [k]. *)
Definition py_in (k : string) (v : pyval) : reply bool :=
  match v with
  | PDict d => Ok (match lookup k d with Some _ => true | None => false end)
  | PList l => Ok (existsb (is_str k) l)
  | PStr s => Ok (contains k s)
  | PBytes _ => Raise (TypeError v "a bytes-like object is required, not 'str'")
  | _ => Raise (TypeError v "argument is not iterable")
  end.

(** [v[k]] for a str [k]. *)
Definition py_getitem (v : pyval) (k : string) : reply pyval :=
  match v with
  | PDict d => match lookup k d with Some x => Ok x | None => Raise (KeyError k) end
  | PList _ | PStr _ | PBytes _ => Raise (TypeError v "indices must be integers")
  | _ => Raise (TypeError v "object is not subscriptable")
  end.

(** ["\n".join(texts)]: every item has to be a str. *)
Fixpoint strs_of (texts : list pyval) : reply (list string) :=
  match texts with
  | [] => Ok []
  | PStr s :: rest => rbind (strs_of rest) (fun ss => Ok (s :: ss))
  | v :: _ => Raise (TypeError v "sequence item: expected str instance")
  end.

Definition py_join (texts : list pyval) : reply string :=
  rbind (strs_of texts) (fun ss => Ok (String.concat LF ss)).

(** [json.dumps(v)] without a [default]: bytes are not serialisable. *)
Fixpoint json_serializable (v : pyval) : bool :=
  match v with
  | PBytes _ => false
  | PList l => forallb json_serializable l
  | PDict d => forallb (fun kv : string * pyval => let (_, x) := kv in json_serializable x) d
  | _ => true
  end.

(** ** UTF-8

    A Python str is represented by its UTF-8 encoding, so that
    [data.decode("utf-8")] succeeds exactly on the well-formed byte sequences
    and then returns those very bytes as text. *)
Definition in_range (lo hi : N) (b : byte) : bool :=
  (N.leb lo (Byte.to_N b) && N.leb (Byte.to_N b) hi)%bool.

Definition cont (b : byte) : bool := in_range 128 191 b.

Fixpoint utf8_valid (bs : list byte) : bool :=
  match bs with
  | [] => true
  | b0 :: r0 =>
    if in_range 0 127 b0 then utf8_valid r0
    else match r0 with
    | [] => false
    | b1 :: r1 =>
      if in_range 194 223 b0 then cont b1 && utf8_valid r1
      else match r1 with
      | [] => false
      | b2 :: r2 =>
        if in_range 224 224 b0 then in_range 160 191 b1 && cont b2 && utf8_valid r2
        else if in_range 225 236 b0 then cont b1 && cont b2 && utf8_valid r2
        else if in_range 237 237 b0 then in_range 128 159 b1 && cont b2 && utf8_valid r2
        else if in_range 238 239 b0 then cont b1 && cont b2 && utf8_valid r2
        else match r2 with
        | [] => false
        | b3 :: r3 =>
          if in_range 240 240 b0
          then in_range 144 191 b1 && cont b2 && cont b3 && utf8_valid r3
          else if in_range 241 243 b0
          then cont b1 && cont b2 && cont b3 && utf8_valid r3
          else if in_range 244 244 b0
          then in_range 128 143 b1 && cont b2 && cont b3 && utf8_valid r3
          else false
        end
      end
    end
  end%bool.

(** [data.decode("utf-8")] *)
Definition decode_utf8 (bs : list byte) : reply string :=
  if utf8_valid bs then Ok (string_of_list_byte bs) else Raise UnicodeDecodeError.

(** ** Observable events *)

(** Keyword arguments of [bedrock_rt.converse]. *)
Record converse_request : Type := {
  c_modelId : string;
  c_messages : pyval;
  c_inferenceConfig : pyval
}.

(** Keyword arguments of [bedrock_rt.invoke_model]; [i_body] is the document
    that [json.dumps(body).encode("utf-8")] serialises. *)
Record invoke_request : Type := {
  i_modelId : string;
  i_contentType : string;
  i_accept : string;
  i_body : pyval
}.

Inductive remote_call : Type :=
| GetInferenceProfile (inferenceProfileIdentifier : string)
| Converse (req : converse_request)
| InvokeModel (req : invoke_request)
| GetCallerIdentity.

(** What one call of [print] or [eprint] writes.  [Text] is a message of the
    script itself, [Reply] text taken from a collaborator's answer, [Dump v]
    is [json.dumps(v, indent=2, ...)], [StrOf v] is [str(v)], and
    [ExnStr e], [ExnRepr e] are [str(e)] and [repr(e)]. *)
Inductive item : Type :=
| Text (s : string)
| Reply (s : string)
| Dump (v : pyval)
| StrOf (v : pyval)
| ExnStr (e : exn)
| ExnRepr (e : exn).

Inductive event : Type :=
| Stdout (i : item)
| Stderr (i : item)
| Call (c : remote_call).

(** ** The world the script runs in

    [boto3.session.Session(...)] and [session.client(...)] build local
    handles and are taken to succeed; the four remote operations are stubs. *)
Record World : Type := {
  getenv : string -> option string;
  region_name : option string;
  has_get_inference_profile : bool;
  get_inference_profile : string -> reply pyval;
  converse : converse_request -> reply pyval;
  invoke_model : invoke_request -> reply (list (string * payload));
  get_caller_identity : reply pyval
}.

(** ** Control flow

    A computation writes events and ends in one of four ways: it falls
    through with a value, raises, executes [return] of [main], or raises
    [SystemExit] through [sys.exit]. *)
Inductive outcome (A : Type) : Type :=
| Normal (a : A)
| Raised (e : exn)
| Returned
| Exited (code : Z).
Arguments Normal {A} a.
Arguments Raised {A} e.
Arguments Returned {A}.
Arguments Exited {A} code.

Definition M (A : Type) : Type := (list event * outcome A)%type.

Definition ret {A} (a : A) : M A := ([], Normal a).

Definition bind {A B} (m : M A) (f : A -> M B) : M B :=
  match m with
  | (l, Normal a) => let (l', o) := f a in ((l ++ l')%list, o)
  | (l, Raised e) => (l, Raised e)
  | (l, Returned) => (l, Returned)
  | (l, Exited c) => (l, Exited c)
  end.

Notation "x <- c1 ;; c2" := (bind c1 (fun x => c2))
  (at level 61, c1 at next level, right associativity).
Notation "c1 ;; c2" := (bind c1 (fun _ => c2))
  (at level 61, right associativity).

(** [try: body except ...]: [handler e] is the suite of the first clause that
    matches [e], or [None] when no clause does and [e] propagates.
    [return] and [SystemExit] pass through: neither is an [Exception]. *)
Definition try_except {A} (body : M A) (handler : exn -> option (M A)) : M A :=
  match body with
  | (l, Raised e) =>
    match handler e with
    | Some h => let (l', o) := h in ((l ++ l')%list, o)
    | None => (l, Raised e)
    end
  | r => r
  end.

Definition print (i : item) : M unit := ([Stdout i], Normal tt).
Definition eprint (i : item) : M unit := ([Stderr i], Normal tt).
Definition sys_exit (code : Z) : M unit := ([], Exited code).
Definition return_ : M unit := ([], Returned).

Definition eval {A} (r : reply A) : M A :=
  ([], match r with Ok a => Normal a | Raise e => Raised e end).

Definition remote {A} (c : remote_call) (r : reply A) : M A :=
  ([Call c], match r with Ok a => Normal a | Raise e => Raised e end).

Definition trace {A} (m : M A) : list event := fst m.
Definition result {A} (m : M A) : outcome A := snd m.

(** The status the interpreter hands to the shell: 0 when [main] returns,
    the argument of [sys.exit], and 1 after an unhandled exception. *)
Definition exit_code {A} (m : M A) : Z :=
  match result m with
  | Normal _ => 0
  | Returned => 0
  | Exited c => c
  | Raised _ => 1
  end.

Definition stdout_of (l : list event) : list item :=
  flat_map (fun ev => match ev with Stdout i => [i] | _ => [] end) l.
Definition stderr_of (l : list event) : list item :=
  flat_map (fun ev => match ev with Stderr i => [i] | _ => [] end) l.
Definition calls_of (l : list event) : list remote_call :=
  flat_map (fun ev => match ev with Call c => [c] | _ => [] end) l.

Definition stdout {A} (m : M A) : list item := stdout_of (trace m).
Definition stderr {A} (m : M A) : list item := stderr_of (trace m).
Definition calls {A} (m : M A) : list remote_call := calls_of (trace m).

(** ** Messages of the script *)

Definition msg_no_arn_1 : string :=
  "ERROR: BEDROCK_INFERENCE_PROFILE_ARN env var is not set.".
Definition msg_no_arn_2 : string := "Set it, then re-run. Example:".
Definition msg_no_arn_3 : string :=
  "  export BEDROCK_INFERENCE_PROFILE_ARN=arn:aws:bedrock:us-east-1:123456789012:inference-profile/my-profile".
Definition msg_no_region : string :=
  "WARNING: No AWS region configured in your environment. Falling back to us-east-1.".
Definition msg_verified : string := "Verified inference profile:".
Definition msg_skip : string :=
  "SDK does not expose get_inference_profile; skipping profile pre-check.".
Definition msg_warn_profile : string :=
  "WARN: Could not describe the inference profile (may be a permissions or SDK-version issue):".
Definition msg_try_converse : string :=
  LF ++ "Attempting bedrock-runtime.converse via inference profile ARN ...".
Definition msg_converse_response : string := "Converse response:".
Definition msg_converse_failed : string := "Converse attempt failed:".
Definition msg_converse_error : string := "Converse attempt error:".
Definition msg_try_invoke : string :=
  LF ++ "Attempting bedrock-runtime.invoke_model with Anthropic-style payload ...".
Definition msg_invoke_response : string := "InvokeModel response:".
Definition msg_invoke_failed : string := "InvokeModel attempt failed:".
Definition msg_invoke_error : string := "InvokeModel attempt error:".
Definition msg_banner : string := LF ++ "All attempts failed. Diagnostics:".
Definition msg_checklist : string :=
  "Checklist: " ++ LF ++
  "- Ensure the ARN is correct and in this region." ++ LF ++
  "- Confirm IAM permissions: bedrock:InvokeModel and bedrock:Converse on the target inference profile or routed models." ++ LF ++
  "- Verify that the routed model for the profile supports the chosen API (Converse or Anthropic Messages)." ++ LF ++
  "- Confirm VPC endpoints or network egress allow Bedrock access if using private networking.".

Definition default_prompt : string := "Say hello in one short sentence.".
Definition default_region : string := "us-east-1".

(** ** The script *)

Section Program.

Variable w : World.

(** Lines 14-16 of [main]: the configuration read at start. *)
Definition resolve_arn : option string :=
  py_or (getenv w "BEDROCK_INFERENCE_PROFILE_ARN") (getenv w "INFERENCE_PROFILE_ARN").

Definition resolve_prompt : string :=
  match getenv w "PROMPT" with Some p => p | None => default_prompt end.

Definition str_of (o : option string) : string :=
  match o with Some s => s | None => "" end.

(** Lines 18-22. *)
Definition require_arn (arn : option string) : M unit :=
  if negb (truthy_str arn) then
    eprint (Text msg_no_arn_1) ;;
    eprint (Text msg_no_arn_2) ;;
    eprint (Text msg_no_arn_3) ;;
    sys_exit 2
  else ret tt.

(** Lines 24-26. *)
Definition resolve_region (region : option string) : M string :=
  if negb (truthy_str region) then
    eprint (Text msg_no_region) ;;
    ret default_region
  else ret (str_of region).

(** Lines 33-43: the only clause is [except ClientError]. *)
Definition verify_body (arn : string) : M unit :=
  if has_get_inference_profile w then
    prof <- remote (GetInferenceProfile arn) (get_inference_profile w arn) ;;
    print (Text msg_verified) ;;
    d <- eval (py_get prof "inferenceProfile" prof) ;;
    print (Dump d)
  else
    print (Text msg_skip).

Definition verify_handler (e : exn) : option (M unit) :=
  match e with
  | ClientError _ =>
    Some (eprint (Text msg_warn_profile) ;; eprint (ExnStr e))
  | OtherException _ _ => None
  end.

Definition verify_profile (arn : string) : M unit :=
  try_except (verify_body arn) verify_handler.

(** Lines 48-52: the request of the conversational call. *)
Definition converse_req (arn prompt : string) : converse_request :=
  {| c_modelId := arn;
     c_messages :=
       PList [PDict [("role", PStr "user");
                     ("content", PList [PDict [("text", PStr prompt)]])]];
     c_inferenceConfig := PDict [("maxTokens", PInt 128)] |}.

(** Lines 59-62: the loop collecting the text blocks. *)
Fixpoint collect_texts (parts texts : list pyval) : reply (list pyval) :=
  match parts with
  | [] => Ok texts
  | p :: rest =>
    rbind (py_in "text" p) (fun found =>
      if found : bool
      then rbind (py_getitem p "text") (fun t => collect_texts rest (texts ++ [t])%list)
      else collect_texts rest texts)
  end.

(** Lines 53-64: what is printed for an answer of the conversational call. *)
Definition show_converse (resp : pyval) : M unit :=
  output <- eval (py_get resp "output" (PDict [])) ;;
  if negb (truthy output) then
    print (Dump resp)
  else
    message <- eval (py_get output "message" (PDict [])) ;;
    parts <- eval (py_get message "content" (PList [])) ;;
    ps <- eval (py_iter parts) ;;
    texts <- eval (collect_texts ps []) ;;
    print (Text msg_converse_response) ;;
    match texts with
    | [] => print (Dump resp)
    | _ :: _ => s <- eval (py_join texts) ;; print (Reply s)
    end.

(** Lines 47-65: the body of the first [try]. *)
Definition converse_body (arn prompt : string) : M unit :=
  print (Text msg_try_converse) ;;
  resp <- remote (Converse (converse_req arn prompt))
                 (converse w (converse_req arn prompt)) ;;
  show_converse resp ;;
  return_.

(** Lines 66-71. *)
Definition converse_handler (e : exn) : option (M unit) :=
  match e with
  | ClientError _ =>
    Some (eprint (Text msg_converse_failed) ;; eprint (ExnStr e))
  | OtherException _ _ =>
    Some (eprint (Text msg_converse_error) ;; eprint (ExnRepr e))
  end.

Definition try_converse (arn prompt : string) : M unit :=
  try_except (converse_body arn prompt) converse_handler.

(** Lines 77-89: the request of the raw invocation. *)
Definition invoke_req (arn prompt : string) : invoke_request :=
  {| i_modelId := arn;
     i_contentType := "application/json";
     i_accept := "application/json";
     i_body :=
       PDict [("anthropic_version", PStr "bedrock-2023-05-31");
              ("max_tokens", PInt 128);
              ("messages",
               PList [PDict [("role", PStr "user");
                             ("content",
                              PList [PDict [("type", PStr "text");
                                            ("text", PStr prompt)]])]])] |}.

(** Lines 90-94: [payload.read()] when the payload has the method. *)
Definition read_payload (p : payload) : reply pyval :=
  match p with
  | Stream content => rbind content (fun b => Ok (PBytes b))
  | Value v => Ok v
  end.

(** Line 96: the argument of the second [print]. *)
Definition render_data (data : pyval) : M item :=
  match data with
  | PBytes b => s <- eval (decode_utf8 b) ;; ret (Reply s)
  | v => ret (StrOf v)
  end.

(** Lines 90-96: what is printed for an answer of the raw invocation. *)
Definition show_invoke (resp : list (string * payload)) : M unit :=
  data <- eval (read_payload
                  (match lookup "body" resp with Some p => p | None => Value PNone end)) ;;
  print (Text msg_invoke_response) ;;
  line <- render_data data ;;
  print line.

(** Lines 76-97: the body of the second [try]. *)
Definition invoke_body (arn prompt : string) : M unit :=
  print (Text msg_try_invoke) ;;
  resp <- remote (InvokeModel (invoke_req arn prompt))
                 (invoke_model w (invoke_req arn prompt)) ;;
  show_invoke resp ;;
  return_.

(** Lines 98-103. *)
Definition invoke_handler (e : exn) : option (M unit) :=
  match e with
  | ClientError _ =>
    Some (eprint (Text msg_invoke_failed) ;; eprint (ExnStr e))
  | OtherException _ _ =>
    Some (eprint (Text msg_invoke_error) ;; eprint (ExnRepr e))
  end.

Definition try_invoke_model (arn prompt : string) : M unit :=
  try_except (invoke_body arn prompt) invoke_handler.

(** Lines 107-109; this [json.dumps] has no [default]. *)
Definition identity_doc (ident : pyval) (region arn : string) : pyval :=
  PDict [("caller", ident); ("region", PStr region);
         ("inference_profile_arn", PStr arn)].

Definition identity_body (region arn : string) : M unit :=
  ident <- remote GetCallerIdentity (get_caller_identity w) ;;
  (if json_serializable (identity_doc ident region arn) then ret tt
   else eval (Raise (TypeError ident "Object is not JSON serializable"))) ;;
  print (Dump (identity_doc ident region arn)).

(** Lines 105-113. *)
Definition terminal_diagnostics (region arn : string) : M unit :=
  eprint (Text msg_banner) ;;
  try_except (identity_body region arn) (fun _ => Some (ret tt)) ;;
  eprint (Text msg_checklist) ;;
  sys_exit 1.

(** Lines 45-113: what follows the profile check. *)
Definition attempts (region arn prompt : string) : M unit :=
  try_converse arn prompt ;;
  try_invoke_model arn prompt ;;
  terminal_diagnostics region arn.

Definition main : M unit :=
  let arn := resolve_arn in
  let prompt := resolve_prompt in
  let region := region_name w in
  require_arn arn ;;
  region <- resolve_region region ;;
  verify_profile (str_of arn) ;;
  attempts region (str_of arn) prompt.

End Program.

(** ** Replacing one collaborator of a world *)

Definition with_env (w : World) (e : string -> option string) : World :=
  {| getenv := e;
     region_name := region_name w;
     has_get_inference_profile := has_get_inference_profile w;
     get_inference_profile := get_inference_profile w;
     converse := converse w;
     invoke_model := invoke_model w;
     get_caller_identity := get_caller_identity w |}.

Definition with_profile (w : World) (r : reply pyval) : World :=
  {| getenv := getenv w;
     region_name := region_name w;
     has_get_inference_profile := true;
     get_inference_profile := fun _ => r;
     converse := converse w;
     invoke_model := invoke_model w;
     get_caller_identity := get_caller_identity w |}.

Definition with_converse (w : World) (r : reply pyval) : World :=
  {| getenv := getenv w;
     region_name := region_name w;
     has_get_inference_profile := has_get_inference_profile w;
     get_inference_profile := get_inference_profile w;
     converse := fun _ => r;
     invoke_model := invoke_model w;
     get_caller_identity := get_caller_identity w |}.

Definition with_invoke_model (w : World) (r : reply (list (string * payload))) : World :=
  {| getenv := getenv w;
     region_name := region_name w;
     has_get_inference_profile := has_get_inference_profile w;
     get_inference_profile := get_inference_profile w;
     converse := converse w;
     invoke_model := fun _ => r;
     get_caller_identity := get_caller_identity w |}.

Definition with_identity (w : World) (r : reply pyval) : World :=
  {| getenv := getenv w;
     region_name := region_name w;
     has_get_inference_profile := has_get_inference_profile w;
     get_inference_profile := get_inference_profile w;
     converse := converse w;
     invoke_model := invoke_model w;
     get_caller_identity := r |}.

(** ** Example worlds *)

Module Samples.

Definition arn0 : string :=
  "arn:aws:bedrock:us-east-1:123456789012:inference-profile/my-profile".

Definition env_of (vars : list (string * string)) : string -> option string :=
  fun k => lookup k vars.

Definition profile0 : pyval :=
  PDict [("inferenceProfile",
          PDict [("inferenceProfileName", PStr "my-profile");
                 ("status", PStr "ACTIVE")])].

Definition hello_resp : pyval :=
  PDict [("output",
          PDict [("message",
                  PDict [("role", PStr "assistant");
                         ("content", PList [PDict [("text", PStr "Hello.")]])])]);
         ("stopReason", PStr "end_turn")].

Definition ident0 : pyval :=
  PDict [("UserId", PStr "AIDAEXAMPLE"); ("Account", PStr "123456789012");
         ("Arn", PStr "arn:aws:iam::123456789012:user/dev")].

Definition denied : exn := ClientError "AccessDeniedException".
Definition unreachable : exn :=
  OtherException "EndpointConnectionError" "Could not connect to the endpoint URL".

(** A healthy setup: every collaborator answers. *)
Definition healthy : World :=
  {| getenv := env_of [("BEDROCK_INFERENCE_PROFILE_ARN", arn0)];
     region_name := Some "us-east-1";
     has_get_inference_profile := true;
     get_inference_profile := fun _ => Ok profile0;
     converse := fun _ => Ok hello_resp;
     invoke_model := fun _ => Ok [("body", Stream (Ok (list_byte_of_string "{}")))];
     get_caller_identity := Ok ident0 |}.

(** Neither variable set. *)
Definition no_arn : World := with_env healthy (env_of []).


(** The conversational call is rejected, the raw invocation answers. *)
Definition fallback : World := with_converse healthy (Raise denied).

(** Both invocations are rejected. *)
Definition exhausted : World := with_invoke_model fallback (Raise denied).

(** The profile check cannot reach the service. *)
Definition profile_unreachable : World := with_profile healthy (Raise unreachable).

(** The conversational call answers with an [output] that is a list. *)
Definition malformed_resp : pyval := PDict [("output", PList [PInt 1])].
Definition malformed : World := with_converse healthy (Ok malformed_resp).

(** The conversational call is rejected and the raw invocation answers with
    bytes that are not UTF-8. *)
Definition undecodable_resp : list (string * payload) :=
  [("body", Value (PBytes [xff]))].
Definition undecodable : World := with_invoke_model fallback (Ok undecodable_resp).

End Samples.

(** ** Vocabulary of the specification *)

(** The configuration a run of [main] works with. *)
Definition the_arn (w : World) : string := str_of (resolve_arn w).
Definition the_prompt (w : World) : string := resolve_prompt w.
Definition the_region (w : World) : string :=
  if truthy_str (region_name w) then str_of (region_name w) else default_region.

(** The two invocation attempts of the run, and what "the attempt failed"
    means: the body of its [try] raised instead of returning. *)
Definition converse_attempt (w : World) : M unit :=
  converse_body w (the_arn w) (the_prompt w).
Definition invoke_attempt (w : World) : M unit :=
  invoke_body w (the_arn w) (the_prompt w).

Definition failed (attempt : M unit) : Prop := exists e, result attempt = Raised e.

(** A step of the run took place. *)
Definition called (w : World) (c : remote_call) : Prop := In (Call c) (trace (main w)).
Definition converse_called (w : World) : Prop :=
  called w (Converse (converse_req (the_arn w) (the_prompt w))).
Definition invoke_called (w : World) : Prop :=
  called w (InvokeModel (invoke_req (the_arn w) (the_prompt w))).
Definition banner_printed (w : World) : Prop :=
  In (Stderr (Text msg_banner)) (trace (main w)) \/ In (Stdout (Text msg_banner)) (trace (main w)).

(** The text segments of a conversational answer, read off the answer the way
    the specification words it: the [text] entries of the blocks listed under
    [output.message.content], in order. *)
Definition content_blocks (resp : pyval) : list pyval :=
  match resp with
  | PDict d =>
    match lookup "output" d with
    | Some (PDict od) =>
      match lookup "message" od with
      | Some (PDict md) =>
        match lookup "content" md with
        | Some (PList blocks) => blocks
        | _ => []
        end
      | _ => []
      end
    | _ => []
    end
  | _ => []
  end.

Definition block_text (b : pyval) : list string :=
  match b with
  | PDict bd => match lookup "text" bd with Some (PStr s) => [s] | _ => [] end
  | _ => []
  end.

Definition text_segments (resp : pyval) : list string :=
  flat_map block_text (content_blocks resp).

(** The documented shape of a conversational answer: a dict whose [output],
    when present and non-empty, is a dict; whose [message], when present, is a
    dict; whose [content], when present, is a list of dicts; and whose [text]
    entries are strings. *)
Definition block_ok (b : pyval) : bool :=
  match b with
  | PDict bd =>
    match lookup "text" bd with
    | None => true
    | Some (PStr _) => true
    | Some _ => false
    end
  | _ => false
  end.

Definition message_ok (m : pyval) : bool :=
  match m with
  | PDict md =>
    match lookup "content" md with
    | None => true
    | Some (PList blocks) => forallb block_ok blocks
    | Some _ => false
    end
  | _ => false
  end.

Definition output_ok (out : pyval) : bool :=
  if truthy out then
    match out with
    | PDict od =>
      match lookup "message" od with
      | None => true
      | Some m => message_ok m
      end
    | _ => false
    end
  else true.

Definition well_formed (resp : pyval) : bool :=
  match resp with
  | PDict d =>
    match lookup "output" d with
    | None => true
    | Some out => output_ok out
    end
  | _ => false
  end.

(** The line that closes a successful conversational attempt. *)
Definition closing_line (resp : pyval) : item :=
  match text_segments resp with
  | [] => Dump resp
  | segs => Reply (String.concat LF segs)
  end.

(** Stream discipline: which items are warnings, errors and diagnostics, and
    which are informational or success content. *)
Definition diagnostic_messages : list string :=
  [msg_no_arn_1; msg_no_arn_2; msg_no_arn_3; msg_no_region; msg_warn_profile;
   msg_converse_failed; msg_converse_error; msg_invoke_failed; msg_invoke_error;
   msg_banner; msg_checklist].

Definition informational_messages : list string :=
  [msg_verified; msg_skip; msg_try_converse; msg_converse_response;
   msg_try_invoke; msg_invoke_response].

Definition is_diagnostic (i : item) : bool :=
  match i with
  | Text s => existsb (String.eqb s) diagnostic_messages
  | ExnStr _ | ExnRepr _ => true
  | Reply _ | Dump _ | StrOf _ => false
  end.

Definition is_informational (i : item) : bool :=
  match i with
  | Text s => existsb (String.eqb s) informational_messages
  | Reply _ | Dump _ | StrOf _ => true
  | ExnStr _ | ExnRepr _ => false
  end.

Definition on_its_stream (ev : event) : bool :=
  match ev with
  | Stdout i => is_informational i
  | Stderr i => is_diagnostic i
  | Call _ => true
  end.

(** Everything the run emits from the failure banner on is on the diagnostic
    stream. *)
Definition diagnostics_on_stderr (w : World) : Prop :=
  forall pre post i,
    trace (main w) = (pre ++ Stderr (Text msg_banner) :: post)%list ->
    ~ In (Stdout i) post.

(** The position of a remote call in the fixed sequence of steps. *)
Definition step_of (c : remote_call) : nat :=
  match c with
  | GetInferenceProfile _ => 1
  | Converse _ => 2
  | InvokeModel _ => 3
  | GetCallerIdentity => 4
  end%nat.

(** Two worlds that give a run the same configuration and the same answers. *)
Definition same_inputs (w1 w2 : World) : Prop :=
  getenv w1 "BEDROCK_INFERENCE_PROFILE_ARN" = getenv w2 "BEDROCK_INFERENCE_PROFILE_ARN" /\
  getenv w1 "INFERENCE_PROFILE_ARN" = getenv w2 "INFERENCE_PROFILE_ARN" /\
  getenv w1 "PROMPT" = getenv w2 "PROMPT" /\
  region_name w1 = region_name w2 /\
  has_get_inference_profile w1 = has_get_inference_profile w2 /\
  (forall a, get_inference_profile w1 a = get_inference_profile w2 a) /\
  (forall r, converse w1 r = converse w2 r) /\
  (forall r, invoke_model w1 r = invoke_model w2 r) /\
  get_caller_identity w1 = get_caller_identity w2.

(** An expression that raises, if at all, something other than a
    [ClientError]. *)
Definition ordinary {A} (r : reply A) : Prop :=
  match r with Ok _ => True | Raise e => is_ClientError e = false end.

(** The events a phase of the run is made of: its own remote call, its own
    messages on each stream, data on standard output and exception texts on
    the diagnostic stream. *)
Definition emits (own_call : remote_call -> bool) (out_msgs err_msgs : list string)
    (ev : event) : bool :=
  match ev with
  | Call c => own_call c
  | Stdout (Text s) => existsb (String.eqb s) out_msgs
  | Stdout (Reply _) | Stdout (Dump _) | Stdout (StrOf _) => true
  | Stdout (ExnStr _) | Stdout (ExnRepr _) => false
  | Stderr (Text s) => existsb (String.eqb s) err_msgs
  | Stderr (ExnStr _) | Stderr (ExnRepr _) => true
  | Stderr (Reply _) | Stderr (Dump _) | Stderr (StrOf _) => false
  end.

Definition no_call (c : remote_call) : bool := false.
Definition is_profile_call (c : remote_call) : bool :=
  match c with GetInferenceProfile _ => true | _ => false end.
Definition is_converse_call (c : remote_call) : bool :=
  match c with Converse _ => true | _ => false end.
Definition is_invoke_call (c : remote_call) : bool :=
  match c with InvokeModel _ => true | _ => false end.

Definition setup_event : event -> bool :=
  emits no_call [] [msg_no_arn_1; msg_no_arn_2; msg_no_arn_3; msg_no_region].
Definition verify_event : event -> bool :=
  emits is_profile_call [msg_verified; msg_skip] [msg_warn_profile].
Definition converse_event : event -> bool :=
  emits is_converse_call [msg_try_converse; msg_converse_response]
        [msg_converse_failed; msg_converse_error].
Definition invoke_event : event -> bool :=
  emits is_invoke_call [msg_try_invoke; msg_invoke_response]
        [msg_invoke_failed; msg_invoke_error].

(** The lines printed for an answer, under the header [hdr]. *)
Definition answer_event (hdr : string) : event -> bool := emits no_call [hdr] [].

(** The events of everything that precedes the terminal diagnostics. *)
Definition early_event (ev : event) : bool :=
  setup_event ev || verify_event ev || converse_event ev || invoke_event ev.

(** What the first two phases leave on the trace. *)
Definition region_events (w : World) : list event :=
  if truthy_str (region_name w) then [] else [Stderr (Text msg_no_region)].

Definition no_arn_events : list event :=
  [Stderr (Text msg_no_arn_1); Stderr (Text msg_no_arn_2); Stderr (Text msg_no_arn_3)].

(** What the identity check leaves on standard output. *)
Definition identity_lines (w : World) (region arn : string) : list event :=
  match get_caller_identity w with
  | Ok ident =>
    if json_serializable (identity_doc ident region arn)
    then [Stdout (Dump (identity_doc ident region arn))]
    else []
  | Raise _ => []
  end.

(** The result of a [try] body that ends in [return]. *)
Definition then_return (o : outcome unit) : outcome unit :=
  match o with Normal _ => Returned | other => other end.

(** What the handler of an attempt prints for [e]. *)
Definition handler_events (failed_msg error_msg : string) (e : exn) : list event :=
  if is_ClientError e
  then [Stderr (Text failed_msg); Stderr (ExnStr e)]
  else [Stderr (Text error_msg); Stderr (ExnRepr e)].

(** What a run leaves on the trace before the first attempt. *)
Definition prelude (w : World) : list event :=
  (region_events w ++ trace (verify_profile w (the_arn w)))%list.

Definition converse_failure : exn -> list event :=
  handler_events msg_converse_failed msg_converse_error.
Definition invoke_failure : exn -> list event :=
  handler_events msg_invoke_failed msg_invoke_error.

Definition diagnostics (w : World) : list event :=
  (Stderr (Text msg_banner) :: Call GetCallerIdentity
     :: identity_lines w (the_region w) (the_arn w)
     ++ [Stderr (Text msg_checklist)])%list.

(** What follows a failed conversational attempt. *)
Definition after_converse (w : World) : M unit :=
  try_invoke_model w (the_arn w) (the_prompt w) ;;
  terminal_diagnostics w (the_region w) (the_arn w).

(** The five ways a run can go. *)
Inductive scenario (w : World) : M unit -> Prop :=
| NoArn :
    truthy_str (resolve_arn w) = false ->
    scenario w (no_arn_events, Exited 2)
| ProfileCrash e :
    truthy_str (resolve_arn w) = true ->
    result (verify_profile w (the_arn w)) = Raised e ->
    is_ClientError e = false ->
    scenario w (prelude w, Raised e)
| ConverseDone :
    truthy_str (resolve_arn w) = true ->
    result (verify_profile w (the_arn w)) = Normal tt ->
    result (converse_attempt w) = Returned ->
    scenario w ((prelude w ++ trace (converse_attempt w))%list, Returned)
| InvokeDone e1 :
    truthy_str (resolve_arn w) = true ->
    result (verify_profile w (the_arn w)) = Normal tt ->
    result (converse_attempt w) = Raised e1 ->
    result (invoke_attempt w) = Returned ->
    scenario w ((prelude w ++ trace (converse_attempt w) ++ converse_failure e1
                 ++ trace (invoke_attempt w))%list, Returned)
| Exhausted e1 e2 :
    truthy_str (resolve_arn w) = true ->
    result (verify_profile w (the_arn w)) = Normal tt ->
    result (converse_attempt w) = Raised e1 ->
    result (invoke_attempt w) = Raised e2 ->
    scenario w ((prelude w ++ trace (converse_attempt w) ++ converse_failure e1
                 ++ trace (invoke_attempt w) ++ invoke_failure e2
                 ++ diagnostics w)%list, Exited 1).

(** ** Further vocabulary *)




(** An answer of a collaborator, as opposed to a message of the script. *)
Definition is_answer (i : item) : bool :=
  match i with
  | Reply _ | Dump _ | StrOf _ => true
  | Text _ | ExnStr _ | ExnRepr _ => false
  end.


(** The payload [resp.get("body")] yields. *)
Definition body_of (resp : list (string * payload)) : payload :=
  match lookup "body" resp with Some p => p | None => Value PNone end.

(** The [output] entry [resp.get("output", {})] yields on a dict. *)
Definition output_of (d : list (string * pyval)) : pyval :=
  match lookup "output" d with Some o => o | None => PDict [] end.

Module MoreSamples.

Import Samples.



(** The profile check is rejected. *)
Definition profile_denied : World := with_profile healthy (Raise denied).

(** An SDK without [get_inference_profile]. *)
Definition old_sdk : World :=
  {| getenv := getenv healthy;
     region_name := region_name healthy;
     has_get_inference_profile := false;
     get_inference_profile := fun _ => Raise unreachable;
     converse := converse healthy;
     invoke_model := invoke_model healthy;
     get_caller_identity := get_caller_identity healthy |}.


(** Both invocations are rejected and the identity check is unreachable. *)
Definition identity_down : World := with_identity exhausted (Raise unreachable).

(** The conversational call answers with an empty output. *)
Definition empty_output_resp : list (string * pyval) :=
  [("output", PDict []); ("stopReason", PStr "end_turn")].
Definition empty_output : World :=
  with_converse healthy (Ok (PDict empty_output_resp)).

(** The conversational call cannot reach the service. *)
Definition converse_down : World := with_converse healthy (Raise unreachable).

(** The raw invocation answers with a stream whose bytes are not UTF-8. *)
Definition bad_stream : World :=
  with_invoke_model fallback (Ok [("body", Stream (Ok [xc3; x28]))]).

(** An answer of the profile check without an [inferenceProfile] entry. *)
Definition bare_profile : list (string * pyval) := [("status", PStr "ACTIVE")].
Definition bare_profile_world : World := with_profile healthy (Ok (PDict bare_profile)).


End MoreSamples.

(** * Proofs *)

(** ** Facts on the control-flow combinators *)

Section ControlFacts.

Context {A B : Type}.

Lemma bind_unfold (m : M A) (f : A -> M B) :
  bind m f =
  match result m with
  | Normal a => ((trace m ++ trace (f a))%list, result (f a))
  | Raised e => (trace m, Raised e)
  | Returned => (trace m, Returned)
  | Exited c => (trace m, Exited c)
  end.
Proof.
  destruct m as [l [a | e | | c]]; simpl; try reflexivity.
  destruct (f a); reflexivity.
Qed.

Lemma try_except_unfold (m : M A) (h : exn -> option (M A)) :
  try_except m h =
  match result m with
  | Raised e =>
    match h e with
    | Some k => ((trace m ++ trace k)%list, result k)
    | None => (trace m, Raised e)
    end
  | _ => m
  end.
Proof.
  destruct m as [l [a | e | | c]]; simpl; try reflexivity.
  destruct (h e) as [[l' o] | ]; reflexivity.
Qed.

Lemma run_eta (m : M A) : m = (trace m, result m).
Proof. destruct m; reflexivity. Qed.

End ControlFacts.

Lemma calls_of_app (l1 l2 : list event) :
  calls_of (l1 ++ l2) = (calls_of l1 ++ calls_of l2)%list.
Proof. apply flat_map_app. Qed.

Lemma forallb_not_in {T} (P : T -> bool) (l : list T) (x : T) :
  forallb P l = true -> P x = false -> ~ In x l.
Proof.
  intros Hall Hx Hin. rewrite forallb_forall in Hall.
  specialize (Hall x Hin). congruence.
Qed.

Lemma forallb_weaken {T} (P Q : T -> bool) (l : list T) :
  (forall x, P x = true -> Q x = true) ->
  forallb P l = true -> forallb Q l = true.
Proof.
  intros H Hall. rewrite forallb_forall in *. auto.
Qed.

(** ** Python operations raise ordinary exceptions only *)

Lemma ordinary_rbind {A B} (r : reply A) (f : A -> reply B) :
  ordinary r -> (forall a, ordinary (f a)) -> ordinary (rbind r f).
Proof. destruct r; simpl; auto. Qed.

Lemma py_get_ordinary v k d : ordinary (py_get v k d).
Proof. destruct v; simpl; auto. Qed.

Lemma py_iter_ordinary v : ordinary (py_iter v).
Proof. destruct v; simpl; auto. Qed.

Lemma py_in_ordinary k v : ordinary (py_in k v).
Proof. destruct v; simpl; auto. Qed.

Lemma py_getitem_ordinary v k : ordinary (py_getitem v k).
Proof. destruct v; simpl; auto. destruct (lookup k d); simpl; auto. Qed.

Lemma collect_texts_ordinary parts : forall texts, ordinary (collect_texts parts texts).
Proof.
  induction parts as [ | p rest IH]; intros texts; simpl; auto.
  apply ordinary_rbind; [apply py_in_ordinary | ].
  intros [ | ]; auto.
  apply ordinary_rbind; [apply py_getitem_ordinary | auto].
Qed.

Lemma strs_of_ordinary texts : ordinary (strs_of texts).
Proof.
  induction texts as [ | v rest IH]; simpl; auto.
  destruct v; simpl; auto.
  apply ordinary_rbind; simpl; auto.
Qed.

Lemma py_join_ordinary texts : ordinary (py_join texts).
Proof. apply ordinary_rbind; [apply strs_of_ordinary | simpl; auto]. Qed.

Lemma decode_utf8_ordinary bs : ordinary (decode_utf8 bs).
Proof. unfold decode_utf8. destruct (utf8_valid bs); simpl; auto. Qed.

(** ** The phases one by one *)

Ltac unfold_run :=
  unfold trace, result, bind, try_except, eval, remote, print, eprint,
         ret, sys_exit, return_ in *; simpl in *.

Lemma require_arn_falsy arn :
  truthy_str arn = false -> require_arn arn = (no_arn_events, Exited 2).
Proof. intros H. unfold require_arn. rewrite H. reflexivity. Qed.

Lemma require_arn_truthy arn :
  truthy_str arn = true -> require_arn arn = ([], Normal tt).
Proof. intros H. unfold require_arn. rewrite H. reflexivity. Qed.

Lemma resolve_region_run w :
  resolve_region (region_name w) = (region_events w, Normal (the_region w)).
Proof.
  unfold resolve_region, region_events, the_region.
  destruct (truthy_str (region_name w)); reflexivity.
Qed.

Lemma verify_profile_result w arn :
  result (verify_profile w arn) = Normal tt \/
  exists e, result (verify_profile w arn) = Raised e /\ is_ClientError e = false.
Proof.
  unfold verify_profile, verify_body.
  destruct (has_get_inference_profile w); [ | left; reflexivity].
  destruct (get_inference_profile w arn) as [prof | [m | c m]]; unfold_run.
  - pose proof (py_get_ordinary prof "inferenceProfile" prof) as Ho.
    destruct (py_get prof "inferenceProfile" prof) as [d | [m | c m]]; simpl in *;
      try discriminate; eauto.
  - left; reflexivity.
  - right; eauto.
Qed.

Lemma verify_profile_events w arn :
  forallb verify_event (trace (verify_profile w arn)) = true.
Proof.
  unfold verify_profile, verify_body.
  destruct (has_get_inference_profile w); [ | reflexivity].
  destruct (get_inference_profile w arn) as [prof | [m | c m]]; unfold_run;
    try reflexivity.
  destruct (py_get prof "inferenceProfile" prof) as [d | [m | c m]]; reflexivity.
Qed.

Lemma eval_ok {A B} (a : A) (f : A -> M B) : bind (eval (Ok a)) f = f a.
Proof. unfold bind, eval. destruct (f a); reflexivity. Qed.

Lemma eval_raise {A B} (e : exn) (f : A -> M B) :
  bind (eval (Raise e)) f = ([], Raised e).
Proof. reflexivity. Qed.

Lemma print_bind {B} (i : item) (f : unit -> M B) :
  bind (print i) f = (Stdout i :: trace (f tt), result (f tt)).
Proof. unfold bind, print, trace, result. destruct (f tt); reflexivity. Qed.

Lemma eprint_bind {B} (i : item) (f : unit -> M B) :
  bind (eprint i) f = (Stderr i :: trace (f tt), result (f tt)).
Proof. unfold bind, eprint, trace, result. destruct (f tt); reflexivity. Qed.

(** Case analysis on the next expression the computation evaluates. *)
Ltac case_eval :=
  match goal with
  | |- context [bind (eval ?r) _] =>
    let E := fresh "E" in
    destruct r eqn:E; [rewrite eval_ok | rewrite eval_raise]
  end.

Ltac show_converse_cases resp :=
  unfold show_converse;
  case_eval; [ | ];
  [ match goal with |- context [truthy ?o] => destruct (truthy o) eqn:? end;
    cbn [negb]; [ | ];
    [ case_eval; [ | ]; [ case_eval; [ | ]; [ case_eval; [ | ];
      [ case_eval; [ | ]; [ rewrite print_bind;
        match goal with |- context [match ?t with [] => _ | _ :: _ => _ end] =>
          destruct t eqn:? end; [ | case_eval ] | ] | ] | ] | ] | ] | ].

Lemma show_converse_events resp :
  forallb (answer_event msg_converse_response) (trace (show_converse resp)) = true.
Proof. show_converse_cases resp; reflexivity. Qed.

Lemma show_converse_result resp :
  result (show_converse resp) = Normal tt \/
  exists e, result (show_converse resp) = Raised e /\ is_ClientError e = false.
Proof.
  show_converse_cases resp;
    repeat match goal with
    | E : py_get ?v ?k ?d = Raise _ |- _ =>
      pose proof (py_get_ordinary v k d) as Ho; rewrite E in Ho; clear E
    | E : py_iter ?v = Raise _ |- _ =>
      pose proof (py_iter_ordinary v) as Ho; rewrite E in Ho; clear E
    | E : collect_texts ?p ?t = Raise _ |- _ =>
      pose proof (collect_texts_ordinary p t) as Ho; rewrite E in Ho; clear E
    | E : py_join ?t = Raise _ |- _ =>
      pose proof (py_join_ordinary t) as Ho; rewrite E in Ho; clear E
    end;
    simpl in *; eauto.
Qed.

(** The loop collects exactly the text segments of well-formed blocks. *)
Lemma collect_texts_blocks blocks :
  forallb block_ok blocks = true ->
  forall texts,
    collect_texts blocks texts = Ok (texts ++ map PStr (flat_map block_text blocks))%list.
Proof.
  induction blocks as [ | b rest IH]; intros Hok texts; simpl.
  - now rewrite app_nil_r.
  - simpl in Hok. apply andb_true_iff in Hok as [Hb Hrest].
    destruct b; simpl in Hb; try discriminate.
    simpl. destruct (lookup "text" d) as [t | ] eqn:Ht; simpl.
    + destruct t; try discriminate. rewrite (IH Hrest).
      simpl. now rewrite <- app_assoc.
    + apply (IH Hrest).
Qed.

Lemma py_join_strs segs : py_join (map PStr segs) = Ok (String.concat LF segs).
Proof.
  unfold py_join.
  assert (H : strs_of (map PStr segs) = Ok segs).
  { induction segs as [ | s rest IH]; simpl; [reflexivity | now rewrite IH]. }
  now rewrite H.
Qed.

Lemma show_blocks resp blocks :
  forallb block_ok blocks = true ->
  flat_map block_text blocks = text_segments resp ->
  (ps <- eval (Ok blocks) ;;
   texts <- eval (collect_texts ps []) ;;
   print (Text msg_converse_response) ;;
   match texts with
   | [] => print (Dump resp)
   | _ :: _ => s <- eval (py_join texts) ;; print (Reply s)
   end) =
  ([Stdout (Text msg_converse_response); Stdout (closing_line resp)], Normal tt).
Proof.
  intros Hok Hsegs. rewrite eval_ok.
  rewrite (collect_texts_blocks blocks Hok), eval_ok, print_bind. simpl app.
  unfold closing_line. rewrite <- Hsegs.
  destruct (flat_map block_text blocks) as [ | s segs] eqn:E; simpl map; cbv iota.
  - reflexivity.
  - change (PStr s :: map PStr segs) with (map PStr (s :: segs)).
    rewrite py_join_strs, eval_ok. reflexivity.
Qed.

(** On an answer of the documented shape nothing raises, and the last line
    printed is the joined text segments, or the raw answer when there are
    none. *)
Lemma show_converse_well_formed resp :
  well_formed resp = true ->
  exists hdr,
    (hdr = [] \/ hdr = [Stdout (Text msg_converse_response)]) /\
    show_converse resp = ((hdr ++ [Stdout (closing_line resp)])%list, Normal tt).
Proof.
  intros Hwf. destruct resp as [ | | | | | | d]; try discriminate.
  unfold show_converse. simpl py_get. rewrite eval_ok.
  unfold well_formed in Hwf.
  assert (Hnone : forall out,
            truthy out = false ->
            match lookup "output" d with Some o => o | None => PDict [] end = out ->
            closing_line (PDict d) = Dump (PDict d)).
  { intros out Hf Hout. unfold closing_line, text_segments, content_blocks.
    destruct (lookup "output" d) as [o | ]; [ | reflexivity].
    subst o. destruct out as [ | | | | | | od]; try reflexivity.
    destruct od; [reflexivity | discriminate]. }
  destruct (lookup "output" d) as [out | ] eqn:Eout.
  - unfold output_ok in Hwf. destruct (truthy out) eqn:Et; cbn [negb].
    + destruct out as [ | | | | | | od]; try discriminate.
      simpl py_get. rewrite eval_ok.
      destruct (lookup "message" od) as [m | ] eqn:Em.
      * destruct m as [ | | | | | | md]; try discriminate.
        simpl py_get. rewrite eval_ok. simpl in Hwf.
        destruct (lookup "content" md) as [c | ] eqn:Ec.
        -- destruct c as [ | | | | | blocks | ]; try discriminate.
           simpl py_iter. exists [Stdout (Text msg_converse_response)].
           split; [now right | ].
           apply show_blocks; [exact Hwf | ].
           unfold text_segments, content_blocks. now rewrite Eout, Em, Ec.
        -- simpl py_iter. exists [Stdout (Text msg_converse_response)].
           split; [now right | ].
           apply (show_blocks (PDict d) []); [reflexivity | ].
           unfold text_segments, content_blocks. now rewrite Eout, Em, Ec.
      * simpl py_get. rewrite eval_ok. simpl py_iter.
        exists [Stdout (Text msg_converse_response)].
        split; [now right | ].
        apply (show_blocks (PDict d) []); [reflexivity | ].
        unfold text_segments, content_blocks. now rewrite Eout, Em.
    + exists []. split; [now left | ].
      rewrite (Hnone out Et eq_refl). reflexivity.
  - simpl. exists []. split; [now left | ].
    rewrite (Hnone (PDict []) eq_refl eq_refl). reflexivity.
Qed.

Lemma converse_body_run w arn prompt :
  converse_body w arn prompt =
  match converse w (converse_req arn prompt) with
  | Ok resp =>
    (Stdout (Text msg_try_converse) :: Call (Converse (converse_req arn prompt))
       :: trace (show_converse resp),
     then_return (result (show_converse resp)))
  | Raise e =>
    ([Stdout (Text msg_try_converse); Call (Converse (converse_req arn prompt))],
     Raised e)
  end.
Proof.
  unfold converse_body. rewrite print_bind.
  destruct (converse w (converse_req arn prompt)) as [resp | e]; [ | reflexivity].
  unfold remote. rewrite bind_unfold. cbn [result trace snd fst].
  rewrite bind_unfold.
  destruct (show_converse resp) as [l [[] | e | | c]]; cbn; rewrite ?app_nil_r;
    reflexivity.
Qed.

Lemma converse_body_result w arn prompt :
  result (converse_body w arn prompt) = Returned \/
  exists e, result (converse_body w arn prompt) = Raised e.
Proof.
  rewrite converse_body_run.
  destruct (converse w (converse_req arn prompt)) as [resp | e];
    [ | right; eexists; reflexivity].
  destruct (show_converse_result resp) as [H | [e [H _]]];
    unfold result at 1; cbn [snd]; rewrite H; cbn; eauto.
Qed.

Lemma converse_handler_run e :
  converse_handler e =
  Some (handler_events msg_converse_failed msg_converse_error e, Normal tt).
Proof. destruct e; reflexivity. Qed.

Lemma try_converse_run w arn prompt :
  try_converse w arn prompt =
  match result (converse_body w arn prompt) with
  | Raised e =>
    ((trace (converse_body w arn prompt)
      ++ handler_events msg_converse_failed msg_converse_error e)%list, Normal tt)
  | _ => converse_body w arn prompt
  end.
Proof.
  unfold try_converse. rewrite try_except_unfold.
  destruct (result (converse_body w arn prompt)); try reflexivity.
  now rewrite converse_handler_run.
Qed.

Lemma converse_body_events w arn prompt :
  forallb converse_event (trace (converse_body w arn prompt)) = true.
Proof.
  rewrite converse_body_run.
  destruct (converse w (converse_req arn prompt)) as [resp | e]; [ | reflexivity].
  cbn [trace fst forallb]. 
  pose proof (show_converse_events resp) as H.
  rewrite forallb_forall in H. 
  change (forallb converse_event (trace (show_converse resp)) = true).
  apply forallb_forall. intros ev Hev. specialize (H ev Hev).
  destruct ev as [[] | [] | c]; cbn in *; try discriminate; try reflexivity.
  rewrite orb_false_r in H. now rewrite H, orb_true_r.
Qed.

Lemma handler_events_emit own out failed_msg error_msg e :
  forallb (emits own out [failed_msg; error_msg])
          (handler_events failed_msg error_msg e) = true.
Proof.
  unfold handler_events. destruct (is_ClientError e); cbn;
    rewrite !String.eqb_refl, ?orb_true_r; reflexivity.
Qed.

Ltac show_invoke_cases :=
  unfold show_invoke;
  case_eval; [ rewrite print_bind; unfold render_data;
               match goal with |- context [match ?d with PBytes _ => _ | _ => _ end] =>
                 destruct d eqn:? end;
               try (rewrite eval_ok);
               try case_eval | ].

Lemma show_invoke_events resp :
  forallb (answer_event msg_invoke_response) (trace (show_invoke resp)) = true.
Proof. show_invoke_cases; reflexivity. Qed.

Lemma show_invoke_result resp :
  result (show_invoke resp) = Normal tt \/
  exists e, result (show_invoke resp) = Raised e.
Proof. show_invoke_cases; cbn; eauto. Qed.

(** The only [ClientError] the processing of an answer can raise is one that
    the stream's own [read] raises. *)
Lemma show_invoke_client_error resp e :
  result (show_invoke resp) = Raised e ->
  is_ClientError e = true ->
  lookup "body" resp = Some (Stream (Raise e)).
Proof.
  show_invoke_cases; cbn; intros H Hc; try discriminate; inversion H; subst.
  - pose proof (decode_utf8_ordinary b) as Ho.
    match goal with E : decode_utf8 _ = _ |- _ => rewrite E in Ho end.
    simpl in Ho. congruence.
  - destruct (lookup "body" resp) as [[[bs | e'] | v] | ]; simpl in *; congruence.
Qed.


Lemma invoke_body_run w arn prompt :
  invoke_body w arn prompt =
  match invoke_model w (invoke_req arn prompt) with
  | Ok resp =>
    (Stdout (Text msg_try_invoke) :: Call (InvokeModel (invoke_req arn prompt))
       :: trace (show_invoke resp),
     then_return (result (show_invoke resp)))
  | Raise e =>
    ([Stdout (Text msg_try_invoke); Call (InvokeModel (invoke_req arn prompt))],
     Raised e)
  end.
Proof.
  unfold invoke_body. rewrite print_bind.
  destruct (invoke_model w (invoke_req arn prompt)) as [resp | e]; [ | reflexivity].
  unfold remote. rewrite bind_unfold. cbn [result trace snd fst].
  rewrite bind_unfold.
  destruct (show_invoke resp) as [l [[] | e | | c]]; cbn; rewrite ?app_nil_r;
    reflexivity.
Qed.

Lemma invoke_body_result w arn prompt :
  result (invoke_body w arn prompt) = Returned \/
  exists e, result (invoke_body w arn prompt) = Raised e.
Proof.
  rewrite invoke_body_run.
  destruct (invoke_model w (invoke_req arn prompt)) as [resp | e];
    [ | right; eexists; reflexivity].
  destruct (show_invoke_result resp) as [H | [e H]];
    unfold result at 1; cbn [snd]; rewrite H; cbn; eauto.
Qed.

Lemma invoke_handler_run e :
  invoke_handler e =
  Some (handler_events msg_invoke_failed msg_invoke_error e, Normal tt).
Proof. destruct e; reflexivity. Qed.

Lemma try_invoke_model_run w arn prompt :
  try_invoke_model w arn prompt =
  match result (invoke_body w arn prompt) with
  | Raised e =>
    ((trace (invoke_body w arn prompt)
      ++ handler_events msg_invoke_failed msg_invoke_error e)%list, Normal tt)
  | _ => invoke_body w arn prompt
  end.
Proof.
  unfold try_invoke_model. rewrite try_except_unfold.
  destruct (result (invoke_body w arn prompt)); try reflexivity.
  now rewrite invoke_handler_run.
Qed.

Lemma invoke_body_events w arn prompt :
  forallb invoke_event (trace (invoke_body w arn prompt)) = true.
Proof.
  rewrite invoke_body_run.
  destruct (invoke_model w (invoke_req arn prompt)) as [resp | e]; [ | reflexivity].
  cbn [trace fst forallb].
  pose proof (show_invoke_events resp) as H.
  rewrite forallb_forall in H.
  change (forallb invoke_event (trace (show_invoke resp)) = true).
  apply forallb_forall. intros ev Hev. specialize (H ev Hev).
  destruct ev as [[] | [] | c]; cbn in *; try discriminate; try reflexivity.
  rewrite orb_false_r in H. now rewrite H, orb_true_r.
Qed.

Lemma terminal_diagnostics_run w region arn :
  terminal_diagnostics w region arn =
  ((Stderr (Text msg_banner) :: Call GetCallerIdentity :: identity_lines w region arn
    ++ [Stderr (Text msg_checklist)])%list, Exited 1).
Proof.
  unfold terminal_diagnostics, identity_body, identity_lines.
  destruct (get_caller_identity w) as [ident | e]; [ | reflexivity].
  unfold remote. rewrite (bind_unfold ([Call GetCallerIdentity], Normal ident)).
  cbn [result trace fst snd].
  destruct (json_serializable (identity_doc ident region arn)); reflexivity.
Qed.

(** ** The run as a whole *)

Lemma attempts_run w region arn prompt :
  attempts w region arn prompt =
  match result (converse_body w arn prompt) with
  | Raised e1 =>
    match result (invoke_body w arn prompt) with
    | Raised e2 =>
      ((trace (converse_body w arn prompt) ++ converse_failure e1
        ++ trace (invoke_body w arn prompt) ++ invoke_failure e2
        ++ trace (terminal_diagnostics w region arn))%list, Exited 1)
    | _ =>
      ((trace (converse_body w arn prompt) ++ converse_failure e1
        ++ trace (invoke_body w arn prompt))%list, Returned)
    end
  | _ => (trace (converse_body w arn prompt), Returned)
  end.
Proof.
  unfold attempts. rewrite bind_unfold, try_converse_run.
  destruct (converse_body_result w arn prompt) as [Hc | [e1 Hc]]; rewrite Hc.
  - rewrite Hc. reflexivity.
  - cbn [result trace fst snd]. rewrite bind_unfold, try_invoke_model_run.
    destruct (invoke_body_result w arn prompt) as [Hi | [e2 Hi]]; rewrite Hi.
    + rewrite ?Hi. cbn [result trace fst snd]. now rewrite <- !app_assoc.
    + cbn [result trace fst snd]. rewrite terminal_diagnostics_run.
      cbn [result trace fst snd]. now rewrite <- !app_assoc.
Qed.

Lemma main_run w :
  main w =
  if truthy_str (resolve_arn w) then
    match result (verify_profile w (the_arn w)) with
    | Raised e => (prelude w, Raised e)
    | _ =>
      ((prelude w ++ trace (attempts w (the_region w) (the_arn w) (the_prompt w)))%list,
       result (attempts w (the_region w) (the_arn w) (the_prompt w)))
    end
  else (no_arn_events, Exited 2).
Proof.
  unfold main, prelude. fold (the_arn w) (the_prompt w).
  destruct (truthy_str (resolve_arn w)) eqn:Ha.
  - rewrite (require_arn_truthy _ Ha), bind_unfold. cbn [result trace fst snd app].
    rewrite resolve_region_run, bind_unfold. cbn [result trace fst snd].
    rewrite bind_unfold.
    destruct (verify_profile_result w (the_arn w)) as [Hv | [e [Hv _]]]; rewrite Hv;
      cbn [result trace fst snd]; now rewrite ?app_assoc.
  - now rewrite (require_arn_falsy _ Ha).
Qed.

(** Every run follows one of the five scenarios. *)
Lemma main_scenario w : scenario w (main w).
Proof.
  rewrite main_run. destruct (truthy_str (resolve_arn w)) eqn:Ha; [ | now constructor].
  destruct (verify_profile_result w (the_arn w)) as [Hv | [e [Hv He]]]; rewrite Hv.
  - rewrite attempts_run. fold (converse_attempt w) (invoke_attempt w).
    destruct (converse_body_result w (the_arn w) (the_prompt w)) as [Hc | [e1 Hc]];
      fold (converse_attempt w) in Hc; rewrite Hc; cbn [result trace fst snd].
    + now constructor.
    + destruct (invoke_body_result w (the_arn w) (the_prompt w)) as [Hi | [e2 Hi]];
        fold (invoke_attempt w) in Hi; rewrite Hi; cbn [result trace fst snd].
      * now constructor.
      * rewrite terminal_diagnostics_run. cbn [result trace fst snd].
        now apply Exhausted.
  - now constructor.
Qed.

Lemma region_events_setup w : forallb setup_event (region_events w) = true.
Proof. unfold region_events. destruct (truthy_str (region_name w)); reflexivity. Qed.

Lemma prelude_events w :
  forallb (fun ev => setup_event ev || verify_event ev) (prelude w) = true.
Proof.
  unfold prelude. rewrite forallb_app. apply andb_true_iff. split.
  - apply (forallb_weaken setup_event); [ | apply region_events_setup].
    intros ev H. now rewrite H.
  - apply (forallb_weaken verify_event); [ | apply verify_profile_events].
    intros ev H. now rewrite H, orb_true_r.
Qed.

(** Only the profile check is called before the first attempt; a later call
    shows that the run got past it. *)
Lemma called_reached w c :
  called w c -> is_profile_call c = false ->
  truthy_str (resolve_arn w) = true /\
  result (verify_profile w (the_arn w)) = Normal tt.
Proof.
  unfold called. intros Hin Hc.
  pose proof (main_scenario w) as S.
  inversion S as [Ha Hm | e Ha Hv He Hm | Ha Hv Hr Hm | e1 Ha Hv Hr1 Hr2 Hm
                 | e1 e2 Ha Hv Hr1 Hr2 Hm]; auto; exfalso;
    rewrite <- Hm in Hin; cbn [trace fst] in Hin.
  - cbn in Hin. intuition discriminate.
  - revert Hin. apply forallb_not_in with (1 := prelude_events w).
    destruct c; cbn in *; congruence.
Qed.

(** An exception leaves [main] only through the profile check. *)
Lemma escapes_only_from_profile_check w e :
  result (main w) = Raised e ->
  result (verify_profile w (the_arn w)) = Raised e /\ is_ClientError e = false.
Proof.
  intros H. pose proof (main_scenario w) as S.
  inversion S as [Ha Hm | e' Ha Hv He Hm | Ha Hv Hr Hm | e1 Ha Hv Hr1 Hr2 Hm
                 | e1 e2 Ha Hv Hr1 Hr2 Hm];
    rewrite <- Hm in H; cbn in H; try discriminate.
  inversion H; subst. auto.
Qed.

(** ** Events of the scenarios *)

Lemma stderr_of_in (l : list event) (i : item) : In (Stderr i) l -> In i (stderr_of l).
Proof.
  intros H. unfold stderr_of. apply in_flat_map.
  exists (Stderr i). split; [exact H | now left].
Qed.

Lemma early_no_arn : forallb early_event no_arn_events = true.
Proof. reflexivity. Qed.

Lemma early_prelude w : forallb early_event (prelude w) = true.
Proof.
  apply (forallb_weaken (fun ev => setup_event ev || verify_event ev));
    [ | apply prelude_events].
  intros ev H. unfold early_event. now rewrite H.
Qed.

Lemma early_converse w : forallb early_event (trace (converse_attempt w)) = true.
Proof.
  apply (forallb_weaken converse_event); [ | apply converse_body_events].
  intros ev H. unfold early_event. now rewrite H, !orb_true_r.
Qed.

Lemma early_converse_failure e : forallb early_event (converse_failure e) = true.
Proof.
  apply (forallb_weaken converse_event); [ | apply handler_events_emit].
  intros ev H. unfold early_event. now rewrite H, !orb_true_r.
Qed.

Lemma early_invoke w : forallb early_event (trace (invoke_attempt w)) = true.
Proof.
  apply (forallb_weaken invoke_event); [ | apply invoke_body_events].
  intros ev H. unfold early_event. now rewrite H, !orb_true_r.
Qed.

Lemma early_invoke_failure e : forallb early_event (invoke_failure e) = true.
Proof.
  apply (forallb_weaken invoke_event); [ | apply handler_events_emit].
  intros ev H. unfold early_event. now rewrite H, !orb_true_r.
Qed.

(** Everything a run emits before the banner. *)
Lemma early_until_failure w e1 e2 :
  forallb early_event
    (prelude w ++ trace (converse_attempt w) ++ converse_failure e1
     ++ trace (invoke_attempt w) ++ invoke_failure e2) = true.
Proof.
  rewrite !forallb_app, early_prelude, early_converse, early_converse_failure,
    early_invoke, early_invoke_failure. reflexivity.
Qed.

Ltac msg_cases H :=
  cbn in H;
  repeat match type of H with
  | (_ || _)%bool = true => apply orb_true_iff in H; destruct H as [H | H]
  end;
  try discriminate H; apply String.eqb_eq in H; subst.

Lemma early_on_its_stream ev : early_event ev = true -> on_its_stream ev = true.
Proof.
  unfold early_event, setup_event, verify_event, converse_event, invoke_event.
  intros H. destruct ev as [[s | | | | | ] | [s | | | | | ] | c];
    try reflexivity; try (cbn in H; discriminate H); msg_cases H; reflexivity.
Qed.

Lemma identity_lines_on_stdout w region arn :
  forallb (emits no_call [] []) (identity_lines w region arn) = true.
Proof.
  unfold identity_lines. destruct (get_caller_identity w) as [ident | e]; [ | reflexivity].
  destruct (json_serializable (identity_doc ident region arn)); reflexivity.
Qed.

Lemma diagnostics_on_its_stream w : forallb on_its_stream (diagnostics w) = true.
Proof.
  unfold diagnostics. cbn [forallb]. rewrite forallb_app.
  rewrite (forallb_weaken (emits no_call [] []) on_its_stream
             _ ltac:(intros [[] | [] | c] H; cbn in *; congruence)
             (identity_lines_on_stdout w _ _)).
  reflexivity.
Qed.

(** * The claims *)

(** C1 (the code departs from the claim).  The claim: an exception of a remote
    call that is not a [ClientError] is recovered locally and never leaves the
    program, the profile check included.  On the run below
    [get_inference_profile] raises a connection error: the [try] around it
    has no clause for it, so the exception leaves [main] -- the process ends
    with an unhandled error and status 1, having printed nothing and having
    tried neither invocation. *)
Theorem C1_profile_check_exception_escapes :
  result (main Samples.profile_unreachable) = Raised Samples.unreachable /\
  is_ClientError Samples.unreachable = false /\
  exit_code (main Samples.profile_unreachable) = 1 /\
  calls (main Samples.profile_unreachable) = [GetInferenceProfile Samples.arn0] /\
  stdout (main Samples.profile_unreachable) = [] /\
  stderr (main Samples.profile_unreachable) = [].
Proof. repeat split; reflexivity. Qed.

(** C2.  When neither variable provides an identifier, the run ends with
    status 2, its only output is the three-line error on the diagnostic
    stream, whose first line names the required variable, and no remote call
    is made. *)
Theorem C2_missing_identifier (w : World) :
  truthy_str (getenv w "BEDROCK_INFERENCE_PROFILE_ARN") = false ->
  truthy_str (getenv w "INFERENCE_PROFILE_ARN") = false ->
  exit_code (main w) = 2 /\
  result (main w) = Exited 2 /\
  calls (main w) = [] /\
  stdout (main w) = [] /\
  stderr (main w) = [Text msg_no_arn_1; Text msg_no_arn_2; Text msg_no_arn_3] /\
  contains "BEDROCK_INFERENCE_PROFILE_ARN" msg_no_arn_1 = true.
Proof.
  intros H1 H2.
  assert (Ha : truthy_str (resolve_arn w) = false).
  { unfold resolve_arn, py_or. now rewrite H1. }
  rewrite main_run, Ha. repeat split; reflexivity.
Qed.

Lemma C2_missing_identifier_witness :
  exit_code (main Samples.no_arn) = 2 /\
  result (main Samples.no_arn) = Exited 2 /\
  calls (main Samples.no_arn) = [] /\
  stdout (main Samples.no_arn) = [] /\
  stderr (main Samples.no_arn) =
    [Text msg_no_arn_1; Text msg_no_arn_2; Text msg_no_arn_3] /\
  contains "BEDROCK_INFERENCE_PROFILE_ARN" msg_no_arn_1 = true.
Proof. apply (C2_missing_identifier Samples.no_arn); reflexivity. Defined.



(** C3.  When the conversational call is made and answers (with an answer of
    the documented shape), the run prints the text segments of
    [output.message.content] joined by newlines, or the raw answer as
    structured data when there are none; that line is the last thing the run
    does, and the status is 0. *)
Theorem C3_converse_success (w : World) (resp : pyval) :
  converse_called w ->
  converse w (converse_req (the_arn w) (the_prompt w)) = Ok resp ->
  well_formed resp = true ->
  result (main w) = Returned /\
  exit_code (main w) = 0 /\
  exists hdr,
    (hdr = [] \/ hdr = [Stdout (Text msg_converse_response)]) /\
    trace (main w) =
    (prelude w
     ++ Stdout (Text msg_try_converse)
     :: Call (Converse (converse_req (the_arn w) (the_prompt w)))
     :: hdr
     ++ [Stdout (match text_segments resp with
                 | [] => Dump resp
                 | segs => Reply (String.concat LF segs)
                 end)])%list.
Proof.
  intros Hcalled Hok Hwf.
  destruct (called_reached w _ Hcalled eq_refl) as [Ha Hv].
  destruct (show_converse_well_formed resp Hwf) as [hdr [Hh Hs]].
  assert (Hc : converse_body w (the_arn w) (the_prompt w) =
               (Stdout (Text msg_try_converse)
                  :: Call (Converse (converse_req (the_arn w) (the_prompt w)))
                  :: hdr ++ [Stdout (closing_line resp)], Returned)%list).
  { rewrite converse_body_run, Hok, Hs. reflexivity. }
  rewrite main_run, Ha, Hv, attempts_run, Hc. cbn [result trace fst snd exit_code].
  repeat split. exists hdr. split; [exact Hh | reflexivity].
Qed.

Lemma C3_converse_success_witness :
  result (main Samples.healthy) = Returned /\
  exit_code (main Samples.healthy) = 0 /\
  exists hdr,
    (hdr = [] \/ hdr = [Stdout (Text msg_converse_response)]) /\
    trace (main Samples.healthy) =
    (prelude Samples.healthy
     ++ Stdout (Text msg_try_converse)
     :: Call (Converse (converse_req (the_arn Samples.healthy)
                                     (the_prompt Samples.healthy)))
     :: hdr
     ++ [Stdout (Reply "Hello.")])%list.
Proof.
  apply (C3_converse_success Samples.healthy Samples.hello_resp).
  - unfold converse_called, called. vm_compute. tauto.
  - reflexivity.
  - reflexivity.
Defined.



(** C5.  When both attempts fail the run ends with status 1 and the last
    thing it prints is the remediation checklist (ARN and region, IAM
    permissions, API support of the routed model, VPC or network egress). *)
Theorem C5_exhaustion (w : World) :
  converse_called w ->
  failed (converse_attempt w) ->
  failed (invoke_attempt w) ->
  exit_code (main w) = 1 /\
  result (main w) = Exited 1 /\
  In (Text msg_checklist) (stdout (main w) ++ stderr (main w)) /\
  (exists before, trace (main w) = (before ++ [Stderr (Text msg_checklist)])%list) /\
  contains "Ensure the ARN is correct and in this region" msg_checklist = true /\
  contains "Confirm IAM permissions" msg_checklist = true /\
  contains "supports the chosen API" msg_checklist = true /\
  contains "VPC endpoints or network egress" msg_checklist = true.
Proof.
  intros Hcalled [e1 Hc] [e2 Hi].
  destruct (called_reached w _ Hcalled eq_refl) as [Ha Hv].
  unfold converse_attempt in Hc. unfold invoke_attempt in Hi.
  assert (Hm : main w =
               ((prelude w ++ trace (converse_attempt w) ++ converse_failure e1
                 ++ trace (invoke_attempt w) ++ invoke_failure e2
                 ++ diagnostics w)%list, Exited 1)).
  { rewrite main_run, Ha, Hv, attempts_run, Hc, Hi, terminal_diagnostics_run.
    reflexivity. }
  rewrite Hm. split; [reflexivity | ]. split; [reflexivity | ].
  split; [ | split; [ | repeat split; reflexivity]].
  - apply in_or_app. right. apply stderr_of_in. cbn [trace fst].
    rewrite !in_app_iff. do 5 right. unfold diagnostics.
    right. right. apply in_or_app. right. now left.
  - cbn [trace fst]. unfold diagnostics.
    exists (prelude w ++ trace (converse_attempt w) ++ converse_failure e1
            ++ trace (invoke_attempt w) ++ invoke_failure e2
            ++ Stderr (Text msg_banner) :: Call GetCallerIdentity
               :: identity_lines w (the_region w) (the_arn w))%list.
    rewrite <- !app_assoc. reflexivity.
Qed.

Lemma C5_exhaustion_witness :
  exit_code (main Samples.exhausted) = 1 /\
  result (main Samples.exhausted) = Exited 1 /\
  In (Text msg_checklist)
     (stdout (main Samples.exhausted) ++ stderr (main Samples.exhausted)) /\
  (exists before,
     trace (main Samples.exhausted) = (before ++ [Stderr (Text msg_checklist)])%list) /\
  contains "Ensure the ARN is correct and in this region" msg_checklist = true /\
  contains "Confirm IAM permissions" msg_checklist = true /\
  contains "supports the chosen API" msg_checklist = true /\
  contains "VPC endpoints or network egress" msg_checklist = true.
Proof.
  apply (C5_exhaustion Samples.exhausted).
  - unfold converse_called, called. vm_compute. tauto.
  - exists Samples.denied. reflexivity.
  - exists Samples.denied. reflexivity.
Defined.

(** C6 (the code departs from the claim).  The claim: warnings, errors and
    diagnostics go only to the diagnostic stream, and in particular everything
    emitted after the failure banner does.  On the run below both attempts
    are rejected and the identity check answers.  The banner
    "All attempts failed. Diagnostics:" and the checklist are written with
    [eprint], but the dump the banner announces is written with [print]: it
    lands on standard output, split from its header, whereas every other
    header of the script shares the stream of what it announces. *)
Theorem C6_identity_dump_on_stdout : ~ diagnostics_on_stderr Samples.exhausted.
Proof.
  intros H.
  apply (H (firstn 11 (trace (main Samples.exhausted)))
           (skipn 12 (trace (main Samples.exhausted)))
           (Dump (identity_doc Samples.ident0 "us-east-1" Samples.arn0))).
  - reflexivity.
  - vm_compute. tauto.
Qed.

(** That dump is the only diagnostic content off the diagnostic stream:
    messages about warnings and errors, exception texts, the banner and the
    checklist are only ever written to the diagnostic stream, and what is
    written to standard output is progress notices, answers and structured
    dumps.  When the banner is printed, what follows it is the identity call,
    the identity dump (if obtained) and the checklist. *)
Lemma messages_and_data_streams (w : World) :
  forallb on_its_stream (trace (main w)) = true /\
  (forall i, is_informational i && is_diagnostic i = false) /\
  (banner_printed w ->
   exists before,
     forallb early_event before = true /\
     trace (main w) =
     (before ++ Stderr (Text msg_banner) :: Call GetCallerIdentity
      :: identity_lines w (the_region w) (the_arn w)
      ++ [Stderr (Text msg_checklist)])%list) /\
  forallb (fun ev => match ev with Stdout (Dump _) => true | _ => false end)
          (identity_lines w (the_region w) (the_arn w)) = true.
Proof.
  pose proof (early_until_failure w) as Hearly.
  assert (Hsub : forall l, forallb early_event l = true ->
                           forallb on_its_stream l = true).
  { intros l. apply forallb_weaken. exact early_on_its_stream. }
  split; [ | split; [ | split]].
  - pose proof (main_scenario w) as S.
    inversion S as [Ha Hm | e Ha Hv He Hm | Ha Hv Hr Hm | e1 Ha Hv Hr1 Hr2 Hm
                   | e1 e2 Ha Hv Hr1 Hr2 Hm]; cbn [trace fst].
    + reflexivity.
    + apply Hsub, early_prelude.
    + apply Hsub. now rewrite forallb_app, early_prelude, early_converse.
    + apply Hsub.
      now rewrite !forallb_app, early_prelude, early_converse,
        early_converse_failure, early_invoke.
    + rewrite !app_assoc, forallb_app, diagnostics_on_its_stream, andb_true_r.
      apply Hsub. rewrite <- !app_assoc. apply Hearly.
  - intros [s | | | | | ]; try reflexivity.
    unfold is_informational, is_diagnostic.
    destruct (existsb (String.eqb s) informational_messages) eqn:E; [ | reflexivity].
    msg_cases E; reflexivity.
  - intros Hb. unfold banner_printed in Hb.
    pose proof (main_scenario w) as S.
    inversion S as [Ha Hm | e Ha Hv He Hm | Ha Hv Hr Hm | e1 Ha Hv Hr1 Hr2 Hm
                   | e1 e2 Ha Hv Hr1 Hr2 Hm]; rewrite <- Hm in Hb; cbn [trace fst] in *.
    + exfalso. destruct Hb as [Hb | Hb]; revert Hb;
        apply forallb_not_in with (1 := early_no_arn); reflexivity.
    + exfalso. destruct Hb as [Hb | Hb]; revert Hb;
        apply forallb_not_in with (1 := early_prelude w); reflexivity.
    + exfalso.
      assert (He : forallb early_event (prelude w ++ trace (converse_attempt w)) = true)
        by now rewrite forallb_app, early_prelude, early_converse.
      destruct Hb as [Hb | Hb]; revert Hb;
        apply forallb_not_in with (1 := He); reflexivity.
    + exfalso.
      assert (He : forallb early_event
                     (prelude w ++ trace (converse_attempt w) ++ converse_failure e1
                      ++ trace (invoke_attempt w)) = true)
        by now rewrite !forallb_app, early_prelude, early_converse,
             early_converse_failure, early_invoke.
      destruct Hb as [Hb | Hb]; revert Hb;
        apply forallb_not_in with (1 := He); reflexivity.
    + exists (prelude w ++ trace (converse_attempt w) ++ converse_failure e1
              ++ trace (invoke_attempt w) ++ invoke_failure e2)%list.
      split; [apply Hearly | ]. unfold diagnostics. now rewrite <- !app_assoc.
  - unfold identity_lines.
    destruct (get_caller_identity w) as [ident | e]; [ | reflexivity].
    destruct (json_serializable (identity_doc ident (the_region w) (the_arn w)));
      reflexivity.
Qed.

Lemma messages_and_data_streams_exhausted :
  forallb on_its_stream (trace (main Samples.exhausted)) = true /\
  exists before,
    forallb early_event before = true /\
    trace (main Samples.exhausted) =
    (before ++ Stderr (Text msg_banner) :: Call GetCallerIdentity
     :: [Stdout (Dump (identity_doc Samples.ident0 "us-east-1" Samples.arn0))]
     ++ [Stderr (Text msg_checklist)])%list.
Proof.
  destruct (messages_and_data_streams Samples.exhausted) as [H1 [_ [H3 _]]].
  split; [exact H1 | ].
  apply H3. left. vm_compute. tauto.
Defined.


(** ** The remote calls of a run *)

Lemma calls_of_call c l : calls_of (Call c :: l) = c :: calls_of l.
Proof. reflexivity. Qed.

Lemma calls_of_stdout i l : calls_of (Stdout i :: l) = calls_of l.
Proof. reflexivity. Qed.

Lemma calls_of_stderr i l : calls_of (Stderr i :: l) = calls_of l.
Proof. reflexivity. Qed.

Lemma calls_of_quiet out err (l : list event) :
  forallb (emits no_call out err) l = true -> calls_of l = [].
Proof.
  induction l as [ | ev l IH]; [reflexivity | ].
  cbn [forallb]. intros H. apply andb_true_iff in H as [Hev Hl].
  destruct ev as [i | i | c]; cbn in *; auto. discriminate.
Qed.

Lemma calls_of_prelude w :
  calls_of (prelude w) = [] \/
  calls_of (prelude w) = [GetInferenceProfile (the_arn w)].
Proof.
  unfold prelude. rewrite calls_of_app.
  rewrite (calls_of_quiet _ _ _ (region_events_setup w)). cbn [app].
  unfold verify_profile, verify_body.
  destruct (has_get_inference_profile w); [ | now left].
  right.
  destruct (get_inference_profile w (the_arn w)) as [prof | [m | c m]]; unfold_run;
    try reflexivity.
  destruct (py_get prof "inferenceProfile" prof) as [d | [m | c m]]; reflexivity.
Qed.

Lemma calls_of_converse_attempt w :
  calls_of (trace (converse_attempt w)) =
  [Converse (converse_req (the_arn w) (the_prompt w))].
Proof.
  unfold converse_attempt. rewrite converse_body_run.
  destruct (converse w _) as [resp | e]; [ | reflexivity].
  cbn [trace fst]. rewrite calls_of_stdout, calls_of_call.
  fold (trace (show_converse resp)).
  now rewrite (calls_of_quiet _ _ _ (show_converse_events resp)).
Qed.

Lemma calls_of_invoke_attempt w :
  calls_of (trace (invoke_attempt w)) =
  [InvokeModel (invoke_req (the_arn w) (the_prompt w))].
Proof.
  unfold invoke_attempt. rewrite invoke_body_run.
  destruct (invoke_model w _) as [resp | e]; [ | reflexivity].
  cbn [trace fst]. rewrite calls_of_stdout, calls_of_call.
  fold (trace (show_invoke resp)).
  now rewrite (calls_of_quiet _ _ _ (show_invoke_events resp)).
Qed.

Lemma calls_of_handler_events a b e : calls_of (handler_events a b e) = [].
Proof. unfold handler_events. destruct (is_ClientError e); reflexivity. Qed.

Lemma calls_of_diagnostics w : calls_of (diagnostics w) = [GetCallerIdentity].
Proof.
  unfold diagnostics. rewrite calls_of_stderr, calls_of_call, calls_of_app,
    (calls_of_quiet _ _ _ (identity_lines_on_stdout w _ _)).
  reflexivity.
Qed.

(** The calls of a run are an initial part of the fixed sequence
    (profile check, when the SDK has it), converse, invoke_model,
    get_caller_identity. *)
Lemma calls_main w :
  exists check,
    (check = [] \/ check = [GetInferenceProfile (the_arn w)]) /\
    (calls (main w) = [] \/
     calls (main w) = check \/
     calls (main w) =
       (check ++ [Converse (converse_req (the_arn w) (the_prompt w))])%list \/
     calls (main w) =
       (check ++ [Converse (converse_req (the_arn w) (the_prompt w));
                  InvokeModel (invoke_req (the_arn w) (the_prompt w))])%list \/
     calls (main w) =
       (check ++ [Converse (converse_req (the_arn w) (the_prompt w));
                  InvokeModel (invoke_req (the_arn w) (the_prompt w));
                  GetCallerIdentity])%list).
Proof.
  exists (calls_of (prelude w)). split; [apply calls_of_prelude | ].
  unfold calls. pose proof (main_scenario w) as S.
  inversion S as [Ha Hm | e Ha Hv He Hm | Ha Hv Hr Hm | e1 Ha Hv Hr1 Hr2 Hm
                 | e1 e2 Ha Hv Hr1 Hr2 Hm]; cbn [trace fst];
    rewrite ?calls_of_app, ?calls_of_converse_attempt, ?calls_of_invoke_attempt,
      ?calls_of_diagnostics;
    unfold converse_failure, invoke_failure; rewrite ?calls_of_handler_events;
    cbn [app]; auto 6.
Qed.

Lemma converse_call_in_attempt w :
  In (Call (Converse (converse_req (the_arn w) (the_prompt w))))
     (trace (converse_attempt w)).
Proof.
  unfold converse_attempt. rewrite converse_body_run.
  destruct (converse w _); cbn; auto.
Qed.

Lemma invoke_call_in_attempt w :
  In (Call (InvokeModel (invoke_req (the_arn w) (the_prompt w))))
     (trace (invoke_attempt w)).
Proof.
  unfold invoke_attempt. rewrite invoke_body_run.
  destruct (invoke_model w _); cbn; auto.
Qed.

(** A run that reaches the terminal diagnostics is an exhausted one. *)
Lemma diagnostics_only_when_exhausted w ev :
  In ev (trace (main w)) -> early_event ev = false ->
  exists e1 e2,
    result (converse_attempt w) = Raised e1 /\
    result (invoke_attempt w) = Raised e2 /\
    main w =
    ((prelude w ++ trace (converse_attempt w) ++ converse_failure e1
      ++ trace (invoke_attempt w) ++ invoke_failure e2 ++ diagnostics w)%list,
     Exited 1).
Proof.
  intros Hin Hev. pose proof (main_scenario w) as S.
  inversion S as [Ha Hm | e Ha Hv He Hm | Ha Hv Hr Hm | e1 Ha Hv Hr1 Hr2 Hm
                 | e1 e2 Ha Hv Hr1 Hr2 Hm]; rewrite <- Hm in Hin; cbn [trace fst] in Hin.
  - exfalso. revert Hin. now apply forallb_not_in with (1 := early_no_arn).
  - exfalso. revert Hin. now apply forallb_not_in with (1 := early_prelude w).
  - exfalso. revert Hin. apply forallb_not_in with (P := early_event); [ | exact Hev].
    now rewrite forallb_app, early_prelude, early_converse.
  - exfalso. revert Hin. apply forallb_not_in with (P := early_event); [ | exact Hev].
    now rewrite !forallb_app, early_prelude, early_converse, early_converse_failure,
      early_invoke.
  - exists e1, e2. auto.
Qed.

(** C7.  The remote calls of a run are in strictly increasing step order
    (profile check, converse, invoke_model, identity check), so that no step
    happens twice or after a later one; the raw invocation is called only
    after a conversational attempt that was made and did not return; the
    terminal diagnostics (banner, identity check) are reached only after both
    attempts were made and failed. *)
Theorem C7_steps_once_in_order (w : World) :
  StronglySorted lt (map step_of (calls (main w))) /\
  (forall r, called w (InvokeModel r) ->
             converse_called w /\ failed (converse_attempt w)) /\
  (banner_printed w \/ called w GetCallerIdentity ->
   converse_called w /\ failed (converse_attempt w) /\
   invoke_called w /\ failed (invoke_attempt w)).
Proof.
  split; [ | split].
  - destruct (calls_main w) as [check [[Hc | Hc] H]]; subst check;
      destruct H as [H | [H | [H | [H | H]]]]; rewrite H; cbn;
      repeat (constructor; try lia).
  - intros r Hin. unfold called in Hin. unfold converse_called, called.
    pose proof (main_scenario w) as S.
    inversion S as [Ha Hm | e Ha Hv He Hm | Ha Hv Hr Hm | e1 Ha Hv Hr1 Hr2 Hm
                   | e1 e2 Ha Hv Hr1 Hr2 Hm]; rewrite <- Hm in Hin; rewrite <- ?Hm;
      cbn [trace fst] in *.
    + exfalso. cbn in Hin. intuition discriminate.
    + exfalso. revert Hin. now apply forallb_not_in with (1 := prelude_events w).
    + exfalso. apply in_app_iff in Hin as [Hin | Hin]; revert Hin.
      * now apply forallb_not_in with (1 := prelude_events w).
      * now apply forallb_not_in with (1 := converse_body_events w _ _).
    + split; [ | now exists e1].
      apply in_or_app. right. apply in_or_app. left. apply converse_call_in_attempt.
    + split; [ | now exists e1].
      apply in_or_app. right. apply in_or_app. left. apply converse_call_in_attempt.
  - intros Hreach.
    assert (Hex : exists ev, In ev (trace (main w)) /\ early_event ev = false).
    { destruct Hreach as [[Hb | Hb] | Hc]; eexists; (split; [eassumption | reflexivity]). }
    destruct Hex as [ev [Hin Hev]].
    destruct (diagnostics_only_when_exhausted w ev Hin Hev) as [e1 [e2 [H1 [H2 Hm]]]].
    unfold converse_called, invoke_called, called. rewrite Hm. cbn [trace fst].
    repeat split; try (now exists e1); try (now exists e2).
    + apply in_or_app. right. apply in_or_app. left. apply converse_call_in_attempt.
    + do 3 (apply in_or_app; right). apply in_or_app. left. apply invoke_call_in_attempt.
Qed.

Lemma C7_steps_once_in_order_witness :
  StronglySorted lt (map step_of (calls (main Samples.exhausted))) /\
  (converse_called Samples.exhausted /\ failed (converse_attempt Samples.exhausted)) /\
  (converse_called Samples.exhausted /\ failed (converse_attempt Samples.exhausted) /\
   invoke_called Samples.exhausted /\ failed (invoke_attempt Samples.exhausted)).
Proof.
  destruct (C7_steps_once_in_order Samples.exhausted) as [H1 [H2 H3]].
  split; [exact H1 | split].
  - apply (H2 (invoke_req (the_arn Samples.exhausted) (the_prompt Samples.exhausted))).
    unfold called. vm_compute. tauto.
  - apply H3. right. unfold called. vm_compute. tauto.
Defined.

(** ** What a run consults

    In this model a run is a function of its world.  The lemmas below record
    which parts of the world it reads: the three variables, the ambient
    region, the SDK capability and the answers of the four collaborators. *)

Section SameInputs.

Variables w1 w2 : World.
Hypothesis Hsame : same_inputs w1 w2.

Lemma same_arn : resolve_arn w1 = resolve_arn w2.
Proof.
  destruct Hsame as [H1 [H2 _]]. unfold resolve_arn. now rewrite H1, H2.
Qed.

Lemma same_prompt : resolve_prompt w1 = resolve_prompt w2.
Proof.
  destruct Hsame as [_ [_ [H3 _]]]. unfold resolve_prompt. now rewrite H3.
Qed.

Lemma same_verify arn : verify_profile w1 arn = verify_profile w2 arn.
Proof.
  destruct Hsame as [_ [_ [_ [_ [H5 [H6 _]]]]]].
  unfold verify_profile, verify_body. now rewrite H5, H6.
Qed.

Lemma same_converse arn prompt : try_converse w1 arn prompt = try_converse w2 arn prompt.
Proof.
  destruct Hsame as [_ [_ [_ [_ [_ [_ [H7 _]]]]]]].
  unfold try_converse, converse_body. now rewrite H7.
Qed.

Lemma same_invoke arn prompt :
  try_invoke_model w1 arn prompt = try_invoke_model w2 arn prompt.
Proof.
  destruct Hsame as [_ [_ [_ [_ [_ [_ [_ [H8 _]]]]]]]].
  unfold try_invoke_model, invoke_body. now rewrite H8.
Qed.

Lemma same_diagnostics region arn :
  terminal_diagnostics w1 region arn = terminal_diagnostics w2 region arn.
Proof.
  destruct Hsame as [_ [_ [_ [_ [_ [_ [_ [_ H9]]]]]]]].
  unfold terminal_diagnostics, identity_body. now rewrite H9.
Qed.

Lemma same_attempts region arn prompt :
  attempts w1 region arn prompt = attempts w2 region arn prompt.
Proof.
  unfold attempts. now rewrite same_converse, same_invoke, same_diagnostics.
Qed.

Lemma same_main : main w1 = main w2.
Proof.
  rewrite !main_run.
  unfold prelude, the_arn, the_region, the_prompt, region_events.
  destruct Hsame as [_ [_ [_ [H4 _]]]].
  now rewrite same_arn, same_prompt, H4, same_verify, same_attempts.
Qed.

End SameInputs.

(** ** Failures while an answer is processed *)

Lemma show_converse_partial resp e :
  result (show_converse resp) = Raised e ->
  is_ClientError e = false /\
  (trace (show_converse resp) = [] \/
   trace (show_converse resp) = [Stdout (Text msg_converse_response)]).
Proof.
  intros H. split.
  - destruct (show_converse_result resp) as [Hn | [e' [He Ho]]]; congruence.
  - revert H. show_converse_cases resp; cbn; intros H; try discriminate H; auto.
Qed.

Lemma show_invoke_partial resp e :
  result (show_invoke resp) = Raised e ->
  trace (show_invoke resp) = [] \/
  trace (show_invoke resp) = [Stdout (Text msg_invoke_response)].
Proof.
  show_invoke_cases; cbn; intros H; try discriminate H; auto.
Qed.

Lemma after_converse_run w :
  after_converse w =
  match result (invoke_attempt w) with
  | Raised e2 =>
    ((trace (invoke_attempt w) ++ invoke_failure e2 ++ diagnostics w)%list, Exited 1)
  | _ => (trace (invoke_attempt w), Returned)
  end.
Proof.
  unfold after_converse, invoke_attempt.
  rewrite bind_unfold, try_invoke_model_run.
  destruct (invoke_body_result w (the_arn w) (the_prompt w)) as [Hi | [e2 Hi]];
    rewrite Hi.
  - rewrite ?Hi. reflexivity.
  - cbn [result trace fst snd]. rewrite terminal_diagnostics_run.
    cbn [result trace fst snd]. unfold diagnostics. now rewrite <- !app_assoc.
Qed.

Lemma main_after_failure w e :
  truthy_str (resolve_arn w) = true ->
  result (verify_profile w (the_arn w)) = Normal tt ->
  result (converse_attempt w) = Raised e ->
  main w =
  ((prelude w ++ trace (converse_attempt w) ++ converse_failure e
    ++ trace (after_converse w))%list, result (after_converse w)).
Proof.
  intros Ha Hv Hc. rewrite main_run, Ha, Hv. unfold attempts.
  fold (after_converse w). rewrite bind_unfold, try_converse_run.
  unfold converse_attempt in Hc. rewrite Hc. cbn [result trace fst snd].
  unfold converse_attempt. now rewrite <- !app_assoc.
Qed.

(** C10.  When a call answers and the processing of the answer raises, the
    handlers of that attempt catch the exception, and the run goes on as the
    run in which the call itself raised that exception: same termination,
    same events, up to the header line that may already have been printed.
    After the conversational attempt this is the generic handler and the run
    goes on to the raw invocation; after the raw invocation the run goes on
    to the terminal diagnostics and status 1, through the generic handler
    unless the exception is a [ClientError], which only the stream's own
    [read] can raise. *)
Theorem C10_processing_failure (w : World) :
  converse_called w ->
  (forall resp e,
     converse w (converse_req (the_arn w) (the_prompt w)) = Ok resp ->
     result (converse_attempt w) = Raised e ->
     is_ClientError e = false /\
     exists before partial after,
       (partial = [] \/ partial = [Stdout (Text msg_converse_response)]) /\
       main w =
       ((before ++ partial
         ++ Stderr (Text msg_converse_error) :: Stderr (ExnRepr e) :: after)%list,
        result (after_converse w)) /\
       main (with_converse w (Raise e)) =
       ((before
         ++ Stderr (Text msg_converse_error) :: Stderr (ExnRepr e) :: after)%list,
        result (after_converse w)) /\
       after = trace (after_converse w) /\
       In (Call (InvokeModel (invoke_req (the_arn w) (the_prompt w)))) after) /\
  (forall resp e,
     failed (converse_attempt w) ->
     invoke_model w (invoke_req (the_arn w) (the_prompt w)) = Ok resp ->
     result (invoke_attempt w) = Raised e ->
     exit_code (main w) = 1 /\
     (is_ClientError e = false ->
      invoke_failure e = [Stderr (Text msg_invoke_error); Stderr (ExnRepr e)]) /\
     (is_ClientError e = true -> lookup "body" resp = Some (Stream (Raise e))) /\
     exists before partial,
       (partial = [] \/ partial = [Stdout (Text msg_invoke_response)]) /\
       main w =
       ((before ++ partial ++ invoke_failure e ++ diagnostics w)%list, Exited 1) /\
       main (with_invoke_model w (Raise e)) =
       ((before ++ invoke_failure e ++ diagnostics w)%list, Exited 1)).
Proof.
  intros Hcalled.
  destruct (called_reached w _ Hcalled eq_refl) as [Ha Hv].
  split.
  - intros resp e Hok Hc.
    assert (Hs : result (show_converse resp) = Raised e).
    { unfold converse_attempt in Hc. rewrite converse_body_run, Hok in Hc.
      cbn [result snd] in Hc. fold (result (show_converse resp)) in Hc.
      destruct (result (show_converse resp)) as [[] | e' | | c]; cbn in Hc; congruence. }
    destruct (show_converse_partial resp e Hs) as [He Hp].
    split; [exact He | ].
    exists (prelude w ++ [Stdout (Text msg_try_converse);
                          Call (Converse (converse_req (the_arn w) (the_prompt w)))])%list,
           (trace (show_converse resp)), (trace (after_converse w)).
    split; [exact Hp | ]. split; [ | split; [ | split]].
    + rewrite (main_after_failure w e Ha Hv Hc). f_equal.
      unfold converse_attempt. rewrite converse_body_run, Hok. cbn [trace fst].
      unfold converse_failure, handler_events. rewrite He.
      rewrite <- !app_assoc. reflexivity.
    + assert (Hc' : result (converse_attempt (with_converse w (Raise e))) = Raised e)
        by reflexivity.
      rewrite (main_after_failure (with_converse w (Raise e)) e Ha Hv Hc').
      unfold converse_failure, handler_events. rewrite He.
      rewrite <- !app_assoc. reflexivity.
    + reflexivity.
    + rewrite after_converse_run.
      destruct (result (invoke_attempt w)); cbn [trace fst];
        try apply invoke_call_in_attempt.
      apply in_or_app. left. apply invoke_call_in_attempt.
  - intros resp e [e1 Hc] Hok Hi.
    assert (Hs : result (show_invoke resp) = Raised e).
    { unfold invoke_attempt in Hi. rewrite invoke_body_run, Hok in Hi.
      cbn [result snd] in Hi. fold (result (show_invoke resp)) in Hi.
      destruct (result (show_invoke resp)) as [[] | e' | | c]; cbn in Hi; congruence. }
    assert (Hm : main w =
                 ((prelude w ++ trace (converse_attempt w) ++ converse_failure e1
                   ++ trace (invoke_attempt w) ++ invoke_failure e
                   ++ diagnostics w)%list, Exited 1)).
    { rewrite (main_after_failure w e1 Ha Hv Hc), after_converse_run, Hi.
      reflexivity. }
    split; [now rewrite Hm | ].
    split; [intros He; unfold invoke_failure, handler_events; now rewrite He | ].
    split; [apply show_invoke_client_error; exact Hs | ].
    exists (prelude w ++ trace (converse_attempt w) ++ converse_failure e1
            ++ [Stdout (Text msg_try_invoke);
                Call (InvokeModel (invoke_req (the_arn w) (the_prompt w)))])%list,
           (trace (show_invoke resp)).
    split; [exact (show_invoke_partial resp e Hs) | ]. split.
    + rewrite Hm. f_equal. unfold invoke_attempt at 1.
      rewrite invoke_body_run, Hok. cbn [trace fst].
      rewrite <- !app_assoc. reflexivity.
    + assert (Hc' : result (converse_attempt (with_invoke_model w (Raise e))) = Raised e1)
        by exact Hc.
      rewrite (main_after_failure (with_invoke_model w (Raise e)) e1 Ha Hv Hc').
      rewrite after_converse_run.
      assert (Hi' : invoke_attempt (with_invoke_model w (Raise e)) =
                    ([Stdout (Text msg_try_invoke);
                      Call (InvokeModel (invoke_req (the_arn w) (the_prompt w)))],
                     Raised e)) by reflexivity.
      rewrite Hi'. cbn [result trace fst snd].
      rewrite <- !app_assoc. reflexivity.
Qed.

Lemma C10_processing_failure_witness :
  (is_ClientError (AttributeError (PList [PInt 1]) "get") = false /\
   exists before partial after,
     (partial = [] \/ partial = [Stdout (Text msg_converse_response)]) /\
     main Samples.malformed =
     ((before ++ partial
       ++ Stderr (Text msg_converse_error)
       :: Stderr (ExnRepr (AttributeError (PList [PInt 1]) "get")) :: after)%list,
      result (after_converse Samples.malformed)) /\
     main (with_converse Samples.malformed
             (Raise (AttributeError (PList [PInt 1]) "get"))) =
     ((before
       ++ Stderr (Text msg_converse_error)
       :: Stderr (ExnRepr (AttributeError (PList [PInt 1]) "get")) :: after)%list,
      result (after_converse Samples.malformed)) /\
     after = trace (after_converse Samples.malformed) /\
     In (Call (InvokeModel (invoke_req (the_arn Samples.malformed)
                                       (the_prompt Samples.malformed)))) after) /\
  exit_code (main Samples.undecodable) = 1.
Proof.
  split.
  - assert (Hcalled : converse_called Samples.malformed).
    { unfold converse_called, called. vm_compute. tauto. }
    destruct (C10_processing_failure Samples.malformed Hcalled) as [H1 _].
    exact (H1 Samples.malformed_resp (AttributeError (PList [PInt 1]) "get")
              eq_refl eq_refl).
  - assert (Hcalled : converse_called Samples.undecodable).
    { unfold converse_called, called. vm_compute. tauto. }
    destruct (C10_processing_failure Samples.undecodable Hcalled) as [_ H2].
    destruct (H2 Samples.undecodable_resp UnicodeDecodeError
                 (ex_intro _ Samples.denied eq_refl) eq_refl eq_refl) as [H _].
    exact H.
Defined.

(** * Further properties of the script *)

(** ** Exit status *)

(** X1.  The status handed to the shell is 0, 1 or 2, and it is 2 exactly
    when neither variable provides an identifier. *)
Theorem exit_status_cases (w : World) :
  (exit_code (main w) = 0 \/ exit_code (main w) = 1 \/ exit_code (main w) = 2) /\
  (exit_code (main w) = 2 <-> truthy_str (resolve_arn w) = false).
Proof.
  pose proof (main_scenario w) as S.
  inversion S as [Ha Hm | e Ha Hv He Hm | Ha Hv Hr Hm | e1 Ha Hv Hr1 Hr2 Hm
                 | e1 e2 Ha Hv Hr1 Hr2 Hm]; unfold exit_code, result; cbn [snd];
    (split; [auto | ]); split; intros H; try exact Ha; try reflexivity;
    try discriminate H; congruence.
Qed.

(** ** The requests of a run *)




(** ** The profile check *)

Lemma verify_profile_cases w arn :
  verify_profile w arn =
  if has_get_inference_profile w then
    match get_inference_profile w arn with
    | Ok prof =>
      match py_get prof "inferenceProfile" prof with
      | Ok d =>
        ([Call (GetInferenceProfile arn); Stdout (Text msg_verified); Stdout (Dump d)],
         Normal tt)
      | Raise e =>
        ([Call (GetInferenceProfile arn); Stdout (Text msg_verified)], Raised e)
      end
    | Raise (ClientError m) =>
      ([Call (GetInferenceProfile arn); Stderr (Text msg_warn_profile);
        Stderr (ExnStr (ClientError m))], Normal tt)
    | Raise (OtherException c m) =>
      ([Call (GetInferenceProfile arn)], Raised (OtherException c m))
    end
  else ([Stdout (Text msg_skip)], Normal tt).
Proof.
  unfold verify_profile, verify_body.
  destruct (has_get_inference_profile w); [ | reflexivity].
  destruct (get_inference_profile w arn) as [prof | [m | c m]]; unfold_run;
    try reflexivity.
  pose proof (py_get_ordinary prof "inferenceProfile" prof) as Ho.
  destruct (py_get prof "inferenceProfile" prof) as [d | [m | c m]]; simpl in *;
    try discriminate; reflexivity.
Qed.

(** X3.  A run ends in an unhandled exception only through the profile check:
    the SDK has [get_inference_profile], the exception is not a
    [ClientError], it was raised by the call itself or by reading an answer
    that is not a dict, and the profile check is the only remote call the run
    made. *)
Theorem unhandled_only_from_profile_check (w : World) (e : exn) :
  result (main w) = Raised e ->
  has_get_inference_profile w = true /\
  is_ClientError e = false /\
  calls (main w) = [GetInferenceProfile (the_arn w)] /\
  exit_code (main w) = 1 /\
  (get_inference_profile w (the_arn w) = Raise e \/
   exists prof,
     get_inference_profile w (the_arn w) = Ok prof /\
     py_get prof "inferenceProfile" prof = Raise e).
Proof.
  intros H.
  destruct (escapes_only_from_profile_check w e H) as [Hv He].
  assert (Hm : main w = (prelude w, Raised e)).
  { pose proof (main_scenario w) as S.
    inversion S as [Ha Hm | e' Ha Hv' He' Hm | Ha Hv' Hr Hm | e1 Ha Hv' Hr1 Hr2 Hm
                   | e1 e2 Ha Hv' Hr1 Hr2 Hm]; rewrite <- Hm in H; cbn in H;
      try discriminate H.
    now inversion H; subst. }
  rewrite Hm. unfold exit_code, calls, result. cbn [trace fst snd].
  unfold prelude. rewrite calls_of_app, (calls_of_quiet _ _ _ (region_events_setup w)).
  cbn [app]. rewrite verify_profile_cases in Hv |- *.
  destruct (has_get_inference_profile w); [ | discriminate Hv].
  split; [reflexivity | ]. split; [exact He | ].
  destruct (get_inference_profile w (the_arn w)) as [prof | [m | c m]].
  - destruct (py_get prof "inferenceProfile" prof) as [d | e'] eqn:Eg;
      cbn in Hv; [discriminate Hv | ].
    inversion Hv; subst e'. repeat split. right. exists prof. auto.
  - discriminate Hv.
  - cbn in Hv. inversion Hv; subst e. repeat split. now left.
Qed.

Lemma unhandled_only_from_profile_check_witness :
  has_get_inference_profile Samples.profile_unreachable = true /\
  is_ClientError Samples.unreachable = false /\
  calls (main Samples.profile_unreachable) =
    [GetInferenceProfile (the_arn Samples.profile_unreachable)] /\
  exit_code (main Samples.profile_unreachable) = 1 /\
  (get_inference_profile Samples.profile_unreachable
     (the_arn Samples.profile_unreachable) = Raise Samples.unreachable \/
   exists prof,
     get_inference_profile Samples.profile_unreachable
       (the_arn Samples.profile_unreachable) = Ok prof /\
     py_get prof "inferenceProfile" prof = Raise Samples.unreachable).
Proof.
  apply (unhandled_only_from_profile_check Samples.profile_unreachable).
  reflexivity.
Defined.

Lemma calls_main_prelude w :
  calls (main w) = [] \/
  calls (main w) = calls_of (prelude w) \/
  calls (main w) =
    (calls_of (prelude w)
     ++ [Converse (converse_req (the_arn w) (the_prompt w))])%list \/
  calls (main w) =
    (calls_of (prelude w)
     ++ [Converse (converse_req (the_arn w) (the_prompt w));
         InvokeModel (invoke_req (the_arn w) (the_prompt w))])%list \/
  calls (main w) =
    (calls_of (prelude w)
     ++ [Converse (converse_req (the_arn w) (the_prompt w));
         InvokeModel (invoke_req (the_arn w) (the_prompt w));
         GetCallerIdentity])%list.
Proof.
  unfold calls. pose proof (main_scenario w) as S.
  inversion S as [Ha Hm | e Ha Hv He Hm | Ha Hv Hr Hm | e1 Ha Hv Hr1 Hr2 Hm
                 | e1 e2 Ha Hv Hr1 Hr2 Hm]; cbn [trace fst];
    rewrite ?calls_of_app, ?calls_of_converse_attempt, ?calls_of_invoke_attempt,
      ?calls_of_diagnostics;
    unfold converse_failure, invoke_failure; rewrite ?calls_of_handler_events;
    cbn [app]; auto 6.
Qed.

Lemma attempts_start w region arn prompt :
  exists rest,
    trace (attempts w region arn prompt) =
    Stdout (Text msg_try_converse) :: Call (Converse (converse_req arn prompt)) :: rest.
Proof.
  rewrite attempts_run.
  assert (Hb : exists l, trace (converse_body w arn prompt) =
                         Stdout (Text msg_try_converse)
                         :: Call (Converse (converse_req arn prompt)) :: l).
  { rewrite converse_body_run. destruct (converse w _); cbn; eauto. }
  destruct Hb as [l Hl].
  destruct (result (converse_body w arn prompt)); try destruct (result (invoke_body w arn prompt));
    cbn [trace fst]; rewrite Hl; cbn [app]; eauto.
Qed.

(** X4.  A rejected profile check does not stop the run: when
    [get_inference_profile] raises a [ClientError], the warning and the text
    of the error go to the diagnostic stream, and the run goes on with the
    conversational attempt and ends as the attempts end. *)
Theorem rejected_profile_check_is_not_fatal (w : World) (m : string) :
  truthy_str (resolve_arn w) = true ->
  has_get_inference_profile w = true ->
  get_inference_profile w (the_arn w) = Raise (ClientError m) ->
  main w =
  ((region_events w
    ++ [Call (GetInferenceProfile (the_arn w)); Stderr (Text msg_warn_profile);
        Stderr (ExnStr (ClientError m))]
    ++ trace (attempts w (the_region w) (the_arn w) (the_prompt w)))%list,
   result (attempts w (the_region w) (the_arn w) (the_prompt w))) /\
  converse_called w /\
  (forall e, result (main w) <> Raised e).
Proof.
  intros Ha Hh Hg.
  assert (Hv : verify_profile w (the_arn w) =
               ([Call (GetInferenceProfile (the_arn w)); Stderr (Text msg_warn_profile);
                 Stderr (ExnStr (ClientError m))], Normal tt)).
  { now rewrite verify_profile_cases, Hh, Hg. }
  assert (Hm : main w =
    ((region_events w
      ++ [Call (GetInferenceProfile (the_arn w)); Stderr (Text msg_warn_profile);
          Stderr (ExnStr (ClientError m))]
      ++ trace (attempts w (the_region w) (the_arn w) (the_prompt w)))%list,
     result (attempts w (the_region w) (the_arn w) (the_prompt w)))).
  { rewrite main_run, Ha. unfold prelude. rewrite Hv. cbn [result trace fst snd].
    now rewrite <- !app_assoc. }
  split; [exact Hm | ]. split.
  - unfold converse_called, called. rewrite Hm. cbn [trace fst].
    destruct (attempts_start w (the_region w) (the_arn w) (the_prompt w)) as [rest Hr].
    rewrite Hr. apply in_or_app. right. apply in_or_app. right. cbn. auto.
  - intros e He. destruct (escapes_only_from_profile_check w e He) as [Hv' _].
    rewrite Hv in Hv'. discriminate Hv'.
Qed.

Lemma rejected_profile_check_is_not_fatal_witness :
  main MoreSamples.profile_denied =
  ((region_events MoreSamples.profile_denied
    ++ [Call (GetInferenceProfile (the_arn MoreSamples.profile_denied));
        Stderr (Text msg_warn_profile);
        Stderr (ExnStr (ClientError "AccessDeniedException"))]
    ++ trace (attempts MoreSamples.profile_denied
                (the_region MoreSamples.profile_denied)
                (the_arn MoreSamples.profile_denied)
                (the_prompt MoreSamples.profile_denied)))%list,
   result (attempts MoreSamples.profile_denied
             (the_region MoreSamples.profile_denied)
             (the_arn MoreSamples.profile_denied)
             (the_prompt MoreSamples.profile_denied))) /\
  converse_called MoreSamples.profile_denied /\
  (forall e, result (main MoreSamples.profile_denied) <> Raised e).
Proof.
  apply (rejected_profile_check_is_not_fatal MoreSamples.profile_denied
           "AccessDeniedException"); reflexivity.
Defined.

(** X5.  With an SDK that does not expose [get_inference_profile] the run
    prints the skip notice on standard output, never calls the profile check,
    goes on with the conversational attempt and cannot end in an unhandled
    exception. *)
Theorem profile_check_skipped (w : World) :
  truthy_str (resolve_arn w) = true ->
  has_get_inference_profile w = false ->
  prelude w = (region_events w ++ [Stdout (Text msg_skip)])%list /\
  (forall a, ~ In (GetInferenceProfile a) (calls (main w))) /\
  converse_called w /\
  (forall e, result (main w) <> Raised e).
Proof.
  intros Ha Hh.
  assert (Hv : verify_profile w (the_arn w) = ([Stdout (Text msg_skip)], Normal tt)).
  { now rewrite verify_profile_cases, Hh. }
  assert (Hp : prelude w = (region_events w ++ [Stdout (Text msg_skip)])%list).
  { unfold prelude. now rewrite Hv. }
  assert (Hne : forall e, result (main w) <> Raised e).
  { intros e He. destruct (escapes_only_from_profile_check w e He) as [Hv' _].
    rewrite Hv in Hv'. discriminate Hv'. }
  split; [exact Hp | ]. split; [ | split; [ | exact Hne]].
  - intros a Hin.
    assert (Hcheck : calls_of (prelude w) = []).
    { rewrite Hp, calls_of_app, (calls_of_quiet _ _ _ (region_events_setup w)).
      reflexivity. }
    pose proof (calls_main_prelude w) as H. rewrite Hcheck in H.
    destruct H as [H | [H | [H | [H | H]]]]; rewrite H in Hin; cbn in Hin;
      intuition discriminate.
  - unfold converse_called, called. rewrite main_run, Ha, Hv. cbn [trace fst].
    destruct (attempts_start w (the_region w) (the_arn w) (the_prompt w)) as [rest Hr].
    rewrite Hr. apply in_or_app. right. cbn. auto.
Qed.

Lemma profile_check_skipped_witness :
  prelude MoreSamples.old_sdk =
    (region_events MoreSamples.old_sdk ++ [Stdout (Text msg_skip)])%list /\
  (forall a, ~ In (GetInferenceProfile a) (calls (main MoreSamples.old_sdk))) /\
  converse_called MoreSamples.old_sdk /\
  (forall e, result (main MoreSamples.old_sdk) <> Raised e).
Proof.
  apply (profile_check_skipped MoreSamples.old_sdk); reflexivity.
Defined.

(** ** The region *)











(** ** The raw invocation *)




(** ** The identity check *)

Lemma identity_doc_serializable ident region arn :
  json_serializable (identity_doc ident region arn) = json_serializable ident.
Proof. cbn. now rewrite andb_true_r. Qed.

(** X8.  A failure of the identity check is swallowed without a trace: when
    [get_caller_identity] raises, or answers with something [json.dumps]
    cannot serialise, the terminal diagnostics are the banner, the call and
    the checklist, with nothing in between, and the status is 1 all the
    same. *)
Theorem identity_failure_is_silent (w : World) :
  converse_called w ->
  failed (converse_attempt w) ->
  failed (invoke_attempt w) ->
  ((exists e, get_caller_identity w = Raise e) \/
   (exists ident, get_caller_identity w = Ok ident /\
                  json_serializable ident = false)) ->
  exit_code (main w) = 1 /\
  exists before,
    forallb early_event before = true /\
    trace (main w) =
    (before ++ [Stderr (Text msg_banner); Call GetCallerIdentity;
                Stderr (Text msg_checklist)])%list.
Proof.
  intros Hcalled [e1 Hc] [e2 Hi] Hid.
  destruct (called_reached w _ Hcalled eq_refl) as [Ha Hv].
  assert (Hl : identity_lines w (the_region w) (the_arn w) = []).
  { unfold identity_lines.
    destruct Hid as [[e He] | [ident [He Hj]]]; rewrite He; [reflexivity | ].
    now rewrite identity_doc_serializable, Hj. }
  assert (Hm : main w =
               ((prelude w ++ trace (converse_attempt w) ++ converse_failure e1
                 ++ trace (invoke_attempt w) ++ invoke_failure e2
                 ++ diagnostics w)%list, Exited 1)).
  { rewrite (main_after_failure w e1 Ha Hv Hc), after_converse_run, Hi. reflexivity. }
  rewrite Hm. split; [reflexivity | ].
  exists (prelude w ++ trace (converse_attempt w) ++ converse_failure e1
          ++ trace (invoke_attempt w) ++ invoke_failure e2)%list.
  split; [apply early_until_failure | ].
  cbn [trace fst]. unfold diagnostics. rewrite Hl. cbn [app].
  now rewrite <- !app_assoc.
Qed.

Lemma identity_failure_is_silent_witness :
  exit_code (main MoreSamples.identity_down) = 1 /\
  exists before,
    forallb early_event before = true /\
    trace (main MoreSamples.identity_down) =
    (before ++ [Stderr (Text msg_banner); Call GetCallerIdentity;
                Stderr (Text msg_checklist)])%list.
Proof.
  apply (identity_failure_is_silent MoreSamples.identity_down).
  - unfold converse_called, called. vm_compute. tauto.
  - exists Samples.denied. reflexivity.
  - exists Samples.denied. reflexivity.
  - left. exists Samples.unreachable. reflexivity.
Defined.

(** ** Failing calls *)

(** X9.  A conversational call that raises never ends the run: a
    [ClientError] is reported under "Converse attempt failed:" with its
    [str], any other exception under "Converse attempt error:" with its
    [repr], both on the diagnostic stream right after the call, and the run
    goes on with the raw invocation and ends as that part ends, with status
    0 or 1. *)
Theorem converse_call_failure_falls_through (w : World) (e : exn) :
  converse_called w ->
  converse w (converse_req (the_arn w) (the_prompt w)) = Raise e ->
  main w =
  ((prelude w
    ++ [Stdout (Text msg_try_converse);
        Call (Converse (converse_req (the_arn w) (the_prompt w)))]
    ++ (if is_ClientError e
        then [Stderr (Text msg_converse_failed); Stderr (ExnStr e)]
        else [Stderr (Text msg_converse_error); Stderr (ExnRepr e)])
    ++ trace (after_converse w))%list,
   result (after_converse w)) /\
  invoke_called w /\
  (exit_code (main w) = 0 \/ exit_code (main w) = 1).
Proof.
  intros Hcalled Hraise.
  destruct (called_reached w _ Hcalled eq_refl) as [Ha Hv].
  assert (Hc : converse_attempt w =
               ([Stdout (Text msg_try_converse);
                 Call (Converse (converse_req (the_arn w) (the_prompt w)))],
                Raised e)).
  { unfold converse_attempt. now rewrite converse_body_run, Hraise. }
  assert (Hm : main w =
    ((prelude w
      ++ [Stdout (Text msg_try_converse);
          Call (Converse (converse_req (the_arn w) (the_prompt w)))]
      ++ (if is_ClientError e
          then [Stderr (Text msg_converse_failed); Stderr (ExnStr e)]
          else [Stderr (Text msg_converse_error); Stderr (ExnRepr e)])
      ++ trace (after_converse w))%list,
     result (after_converse w))).
  { rewrite (main_after_failure w e Ha Hv); [ | now rewrite Hc].
    now rewrite Hc. }
  split; [exact Hm | ]. split.
  - unfold invoke_called, called. rewrite Hm. cbn [trace fst].
    do 3 (apply in_or_app; right).
    rewrite after_converse_run.
    destruct (result (invoke_attempt w)); cbn [trace fst];
      try apply invoke_call_in_attempt.
    apply in_or_app. left. apply invoke_call_in_attempt.
  - rewrite Hm, after_converse_run. unfold exit_code.
    destruct (invoke_body_result w (the_arn w) (the_prompt w)) as [Hi | [e2 Hi]];
      fold (invoke_attempt w) in Hi; rewrite Hi; cbn; auto.
Qed.

Lemma converse_call_failure_falls_through_witness :
  main MoreSamples.converse_down =
  ((prelude MoreSamples.converse_down
    ++ [Stdout (Text msg_try_converse);
        Call (Converse (converse_req (the_arn MoreSamples.converse_down)
                                     (the_prompt MoreSamples.converse_down)))]
    ++ [Stderr (Text msg_converse_error); Stderr (ExnRepr Samples.unreachable)]
    ++ trace (after_converse MoreSamples.converse_down))%list,
   result (after_converse MoreSamples.converse_down)) /\
  invoke_called MoreSamples.converse_down /\
  (exit_code (main MoreSamples.converse_down) = 0 \/
   exit_code (main MoreSamples.converse_down) = 1).
Proof.
  apply (converse_call_failure_falls_through MoreSamples.converse_down
           Samples.unreachable).
  - unfold converse_called, called. vm_compute. tauto.
  - reflexivity.
Defined.

(** ** The conversational answer *)

Lemma show_converse_length d :
  result (show_converse (PDict d)) = Normal tt ->
  List.length (trace (show_converse (PDict d))) =
  (if truthy (output_of d) then 2 else 1)%nat.
Proof.
  unfold show_converse. simpl py_get. fold (output_of d). rewrite eval_ok.
  destruct (truthy (output_of d)); cbn [negb]; [ | reflexivity].
  case_eval; [ | intros H; discriminate H].
  case_eval; [ | intros H; discriminate H].
  case_eval; [ | intros H; discriminate H].
  case_eval; [ | intros H; discriminate H].
  rewrite print_bind.
  match goal with |- context [match ?t with [] => _ | _ :: _ => _ end] =>
    destruct t end; [reflexivity | ].
  case_eval; [reflexivity | intros H; discriminate H].
Qed.

Lemma show_converse_header d :
  well_formed (PDict d) = true ->
  show_converse (PDict d) =
  (((if truthy (output_of d) then [Stdout (Text msg_converse_response)] else [])
    ++ [Stdout (closing_line (PDict d))])%list, Normal tt).
Proof.
  intros Hwf.
  destruct (show_converse_well_formed (PDict d) Hwf) as [hdr [Hh Hs]].
  assert (Hlen : List.length (trace (show_converse (PDict d))) =
                 (if truthy (output_of d) then 2 else 1)%nat).
  { apply show_converse_length. now rewrite Hs. }
  rewrite Hs in Hlen |- *. cbn [trace fst] in Hlen.
  destruct Hh; subst hdr; destruct (truthy (output_of d)); cbn in Hlen;
    try discriminate Hlen; reflexivity.
Qed.

(** X10.  For an answer of the documented shape, the header
    "Converse response:" is printed exactly when the answer has a non-empty
    [output]; an answer whose [output] is missing or empty is dumped raw,
    right after the call, without the header. *)
Theorem converse_header_iff_output (w : World) (d : list (string * pyval)) :
  converse_called w ->
  converse w (converse_req (the_arn w) (the_prompt w)) = Ok (PDict d) ->
  well_formed (PDict d) = true ->
  (In (Stdout (Text msg_converse_response)) (trace (main w)) <->
   truthy (output_of d) = true) /\
  (truthy (output_of d) = false ->
   trace (main w) =
   (prelude w
    ++ [Stdout (Text msg_try_converse);
        Call (Converse (converse_req (the_arn w) (the_prompt w)));
        Stdout (Dump (PDict d))])%list).
Proof.
  intros Hcalled Hok Hwf.
  destruct (called_reached w _ Hcalled eq_refl) as [Ha Hv].
  assert (Hc : converse_body w (the_arn w) (the_prompt w) =
               (Stdout (Text msg_try_converse)
                  :: Call (Converse (converse_req (the_arn w) (the_prompt w)))
                  :: (if truthy (output_of d)
                      then [Stdout (Text msg_converse_response)] else [])
                  ++ [Stdout (closing_line (PDict d))], Returned)%list).
  { rewrite converse_body_run, Hok, (show_converse_header d Hwf). reflexivity. }
  assert (Hm : trace (main w) =
               (prelude w
                ++ Stdout (Text msg_try_converse)
                :: Call (Converse (converse_req (the_arn w) (the_prompt w)))
                :: (if truthy (output_of d)
                    then [Stdout (Text msg_converse_response)] else [])
                ++ [Stdout (closing_line (PDict d))])%list).
  { rewrite main_run, Ha, Hv, attempts_run, Hc. reflexivity. }
  assert (Hclose : truthy (output_of d) = false ->
                   closing_line (PDict d) = Dump (PDict d)).
  { intros Hf. unfold closing_line, text_segments, content_blocks.
    unfold output_of in Hf. destruct (lookup "output" d) as [o | ]; [ | reflexivity].
    destruct o as [ | | | | | | od]; try reflexivity.
    destruct od; [reflexivity | discriminate Hf]. }
  split.
  - rewrite Hm. split.
    + intros Hin. apply in_app_iff in Hin as [Hin | Hin].
      * exfalso. revert Hin.
        apply forallb_not_in with (1 := prelude_events w). reflexivity.
      * destruct (truthy (output_of d)); [reflexivity | ]. exfalso.
        cbn in Hin. destruct Hin as [Hin | [Hin | [Hin | []]]]; try discriminate Hin.
        unfold closing_line in Hin.
        destruct (text_segments (PDict d)); discriminate Hin.
    + intros Ht. rewrite Ht. apply in_or_app. right. cbn. auto.
  - intros Hf. rewrite Hm, Hf, (Hclose Hf). reflexivity.
Qed.

Lemma converse_header_iff_output_witness :
  (In (Stdout (Text msg_converse_response)) (trace (main MoreSamples.empty_output)) <->
   truthy (output_of MoreSamples.empty_output_resp) = true) /\
  (truthy (output_of MoreSamples.empty_output_resp) = false ->
   trace (main MoreSamples.empty_output) =
   (prelude MoreSamples.empty_output
    ++ [Stdout (Text msg_try_converse);
        Call (Converse (converse_req (the_arn MoreSamples.empty_output)
                                     (the_prompt MoreSamples.empty_output)));
        Stdout (Dump (PDict MoreSamples.empty_output_resp))])%list).
Proof.
  apply (converse_header_iff_output MoreSamples.empty_output
           MoreSamples.empty_output_resp).
  - unfold converse_called, called. vm_compute. tauto.
  - reflexivity.
  - reflexivity.
Defined.

(** ** Successful runs *)

Lemma show_converse_ends resp :
  result (show_converse resp) = Normal tt ->
  exists l i,
    trace (show_converse resp) = (l ++ [Stdout i])%list /\ is_answer i = true.
Proof.
  show_converse_cases resp; cbn [result trace fst snd]; intros H;
    try discriminate H.
  - exists [Stdout (Text msg_converse_response)], (Dump resp). auto.
  - eexists [Stdout (Text msg_converse_response)], (Reply _). split; reflexivity.
  - exists [], (Dump resp). auto.
Qed.

Lemma show_invoke_ends resp :
  result (show_invoke resp) = Normal tt ->
  exists l i,
    trace (show_invoke resp) = (l ++ [Stdout i])%list /\ is_answer i = true.
Proof.
  show_invoke_cases; cbn [result trace fst snd]; intros H; try discriminate H;
    (eexists [Stdout (Text msg_invoke_response)], _; split; reflexivity).
Qed.

(** X11.  A run that ends with status 0 has returned from [main] right after
    printing an answer on standard output: its last event is a reply text, a
    dump or a [str] of the payload, and neither the failure banner nor the
    identity check occurs in it. *)
Theorem success_ends_with_an_answer (w : World) :
  exit_code (main w) = 0 ->
  result (main w) = Returned /\
  (exists before i,
     trace (main w) = (before ++ [Stdout i])%list /\ is_answer i = true) /\
  ~ banner_printed w /\
  ~ called w GetCallerIdentity.
Proof.
  intros Hexit.
  assert (Hnot : forall ev, early_event ev = false -> ~ In ev (trace (main w))).
  { intros ev Hev Hin.
    destruct (diagnostics_only_when_exhausted w ev Hin Hev) as [e1 [e2 [_ [_ Hm]]]].
    rewrite Hm in Hexit. discriminate Hexit. }
  split; [ | split; [ | split]].
  - pose proof (main_scenario w) as S.
    inversion S as [Ha Hm | e Ha Hv He Hm | Ha Hv Hr Hm | e1 Ha Hv Hr1 Hr2 Hm
                   | e1 e2 Ha Hv Hr1 Hr2 Hm]; rewrite <- Hm in Hexit;
      try discriminate Hexit; reflexivity.
  - pose proof (main_scenario w) as S.
    inversion S as [Ha Hm | e Ha Hv He Hm | Ha Hv Hr Hm | e1 Ha Hv Hr1 Hr2 Hm
                   | e1 e2 Ha Hv Hr1 Hr2 Hm]; rewrite <- Hm in Hexit;
      try discriminate Hexit; cbn [trace fst].
    + unfold converse_attempt in *. rewrite converse_body_run in Hr |- *.
      destruct (converse w _) as [resp | e]; [ | discriminate Hr].
      cbn [result snd] in Hr. fold (result (show_converse resp)) in Hr.
      destruct (show_converse_result resp) as [Hn | [e [Hn _]]];
        rewrite Hn in Hr; [ | discriminate Hr].
      destruct (show_converse_ends resp Hn) as [l [i [Hl Hi]]].
      exists (prelude w ++ Stdout (Text msg_try_converse)
              :: Call (Converse (converse_req (the_arn w) (the_prompt w))) :: l)%list, i.
      cbn [trace fst]. rewrite Hl. split; [ | exact Hi].
      now rewrite <- !app_assoc.
    + unfold invoke_attempt in *. rewrite invoke_body_run in Hr2 |- *.
      destruct (invoke_model w _) as [resp | e]; [ | discriminate Hr2].
      cbn [result snd] in Hr2. fold (result (show_invoke resp)) in Hr2.
      destruct (show_invoke_result resp) as [Hn | [e Hn]];
        rewrite Hn in Hr2; [ | discriminate Hr2].
      destruct (show_invoke_ends resp Hn) as [l [i [Hl Hi]]].
      exists (prelude w ++ trace (converse_body w (the_arn w) (the_prompt w))
              ++ converse_failure e1
              ++ Stdout (Text msg_try_invoke)
              :: Call (InvokeModel (invoke_req (the_arn w) (the_prompt w))) :: l)%list, i.
      cbn [trace fst]. rewrite Hl. split; [ | exact Hi].
      now rewrite <- !app_assoc.
  - intros [Hb | Hb]; revert Hb; now apply Hnot.
  - unfold called. now apply Hnot.
Qed.

Lemma success_ends_with_an_answer_witness :
  result (main Samples.fallback) = Returned /\
  (exists before i,
     trace (main Samples.fallback) = (before ++ [Stdout i])%list /\
     is_answer i = true) /\
  ~ banner_printed Samples.fallback /\
  ~ called Samples.fallback GetCallerIdentity.
Proof.
  apply (success_ends_with_an_answer Samples.fallback). reflexivity.
Defined.

Lemma stderr_of_app (l1 l2 : list event) :
  stderr_of (l1 ++ l2) = (stderr_of l1 ++ stderr_of l2)%list.
Proof. apply flat_map_app. Qed.

(** X12.  A clean run is silent on the diagnostic stream: with an identifier
    and a region configured, a profile check that is skipped or answers with
    a dict, and a conversational answer of the documented shape, nothing is
    written to the diagnostic stream and the status is 0.  The descriptor
    printed for the profile is its [inferenceProfile] entry, or the whole
    answer when it has none. *)
Theorem clean_run_is_silent_on_stderr (w : World) (resp : pyval) :
  truthy_str (resolve_arn w) = true ->
  truthy_str (region_name w) = true ->
  (has_get_inference_profile w = false \/
   exists d, get_inference_profile w (the_arn w) = Ok (PDict d)) ->
  converse w (converse_req (the_arn w) (the_prompt w)) = Ok resp ->
  well_formed resp = true ->
  stderr (main w) = [] /\
  exit_code (main w) = 0 /\
  (forall d,
     has_get_inference_profile w = true ->
     get_inference_profile w (the_arn w) = Ok (PDict d) ->
     exists rest,
       trace (main w) =
       Call (GetInferenceProfile (the_arn w))
       :: Stdout (Text msg_verified)
       :: Stdout (Dump (match lookup "inferenceProfile" d with
                        | Some entry => entry
                        | None => PDict d
                        end))
       :: rest).
Proof.
  intros Ha Hr Hp Hok Hwf.
  destruct (show_converse_well_formed resp Hwf) as [hdr [Hh Hs]].
  assert (Hc : converse_body w (the_arn w) (the_prompt w) =
               (Stdout (Text msg_try_converse)
                  :: Call (Converse (converse_req (the_arn w) (the_prompt w)))
                  :: hdr ++ [Stdout (closing_line resp)], Returned)%list).
  { rewrite converse_body_run, Hok, Hs. reflexivity. }
  assert (Hreg : region_events w = []).
  { unfold region_events. now rewrite Hr. }
  assert (Hv : (verify_profile w (the_arn w) = ([Stdout (Text msg_skip)], Normal tt) /\
                has_get_inference_profile w = false) \/
               exists d,
                 has_get_inference_profile w = true /\
                 get_inference_profile w (the_arn w) = Ok (PDict d) /\
                 verify_profile w (the_arn w) =
                 ([Call (GetInferenceProfile (the_arn w)); Stdout (Text msg_verified);
                   Stdout (Dump (match lookup "inferenceProfile" d with
                                 | Some entry => entry
                                 | None => PDict d
                                 end))], Normal tt)).
  { rewrite verify_profile_cases.
    destruct (has_get_inference_profile w) eqn:Hh'.
    - right. destruct Hp as [Hp | [d Hp]]; [discriminate Hp | ].
      exists d. rewrite Hp. cbn. auto.
    - left. auto. }
  assert (Hm : main w =
               ((trace (verify_profile w (the_arn w))
                 ++ Stdout (Text msg_try_converse)
                 :: Call (Converse (converse_req (the_arn w) (the_prompt w)))
                 :: hdr ++ [Stdout (closing_line resp)])%list, Returned)).
  { rewrite main_run, Ha. unfold prelude. rewrite Hreg.
    destruct Hv as [[Hv _] | [d [_ [_ Hv]]]]; rewrite Hv; cbn [result trace fst snd app];
      rewrite attempts_run, Hc; reflexivity. }
  rewrite Hm. split; [ | split; [reflexivity | ]].
  - unfold stderr. cbn [trace fst]. rewrite stderr_of_app.
    destruct Hv as [[Hv _] | [d [_ [_ Hv]]]]; rewrite Hv; cbn [trace fst];
      destruct Hh; subst hdr; reflexivity.
  - intros d Hh' Hg. destruct Hv as [[_ Hv] | [d' [_ [Hg' Hv]]]]; [congruence | ].
    rewrite Hg in Hg'. inversion Hg'; subst d'. rewrite Hv. cbn [trace fst app].
    eauto.
Qed.

Lemma clean_run_is_silent_on_stderr_witness :
  stderr (main MoreSamples.bare_profile_world) = [] /\
  exit_code (main MoreSamples.bare_profile_world) = 0 /\
  (forall d,
     has_get_inference_profile MoreSamples.bare_profile_world = true ->
     get_inference_profile MoreSamples.bare_profile_world
       (the_arn MoreSamples.bare_profile_world) = Ok (PDict d) ->
     exists rest,
       trace (main MoreSamples.bare_profile_world) =
       Call (GetInferenceProfile (the_arn MoreSamples.bare_profile_world))
       :: Stdout (Text msg_verified)
       :: Stdout (Dump (match lookup "inferenceProfile" d with
                        | Some entry => entry
                        | None => PDict d
                        end))
       :: rest).
Proof.
  apply (clean_run_is_silent_on_stderr MoreSamples.bare_profile_world
           Samples.hello_resp).
  - reflexivity.
  - reflexivity.
  - right. exists MoreSamples.bare_profile. reflexivity.
  - reflexivity.
  - reflexivity.
Defined.

(** X13.  A payload of bytes that are not UTF-8 makes the raw invocation
    fail after its header is out: "InvokeModel response:" is already on
    standard output when the decoding raises, the generic handler reports the
    decoding error on the diagnostic stream, and the run ends with the
    terminal diagnostics and status 1. *)
Theorem undecodable_payload_fails_after_header (w : World)
    (resp : list (string * payload)) (bs : list byte) :
  converse_called w ->
  failed (converse_attempt w) ->
  invoke_model w (invoke_req (the_arn w) (the_prompt w)) = Ok resp ->
  read_payload (body_of resp) = Ok (PBytes bs) ->
  utf8_valid bs = false ->
  exit_code (main w) = 1 /\
  exists before,
    forallb early_event before = true /\
    trace (main w) =
    (before
     ++ [Call (InvokeModel (invoke_req (the_arn w) (the_prompt w)));
         Stdout (Text msg_invoke_response);
         Stderr (Text msg_invoke_error);
         Stderr (ExnRepr UnicodeDecodeError)]
     ++ diagnostics w)%list.
Proof.
  intros Hcalled [e1 Hc] Hok Hr Hbad.
  destruct (called_reached w _ Hcalled eq_refl) as [Ha Hv].
  assert (Hs : show_invoke resp =
               ([Stdout (Text msg_invoke_response)], Raised UnicodeDecodeError)).
  { unfold show_invoke. fold (body_of resp). rewrite Hr, eval_ok, print_bind.
    unfold render_data, decode_utf8. rewrite Hbad. reflexivity. }
  assert (Hi : invoke_attempt w =
               ([Stdout (Text msg_try_invoke);
                 Call (InvokeModel (invoke_req (the_arn w) (the_prompt w)));
                 Stdout (Text msg_invoke_response)], Raised UnicodeDecodeError)).
  { unfold invoke_attempt. rewrite invoke_body_run, Hok, Hs. reflexivity. }
  assert (Hm : main w =
               ((prelude w ++ trace (converse_attempt w) ++ converse_failure e1
                 ++ [Stdout (Text msg_try_invoke);
                     Call (InvokeModel (invoke_req (the_arn w) (the_prompt w)));
                     Stdout (Text msg_invoke_response)]
                 ++ [Stderr (Text msg_invoke_error); Stderr (ExnRepr UnicodeDecodeError)]
                 ++ diagnostics w)%list, Exited 1)).
  { rewrite (main_after_failure w e1 Ha Hv Hc), after_converse_run, Hi. reflexivity. }
  rewrite Hm. split; [reflexivity | ].
  exists (prelude w ++ trace (converse_attempt w) ++ converse_failure e1
          ++ [Stdout (Text msg_try_invoke)])%list.
  split.
  - now rewrite !forallb_app, early_prelude, early_converse, early_converse_failure.
  - cbn [trace fst]. rewrite <- !app_assoc. reflexivity.
Qed.

Lemma undecodable_payload_fails_after_header_witness :
  exit_code (main MoreSamples.bad_stream) = 1 /\
  exists before,
    forallb early_event before = true /\
    trace (main MoreSamples.bad_stream) =
    (before
     ++ [Call (InvokeModel (invoke_req (the_arn MoreSamples.bad_stream)
                                       (the_prompt MoreSamples.bad_stream)));
         Stdout (Text msg_invoke_response);
         Stderr (Text msg_invoke_error);
         Stderr (ExnRepr UnicodeDecodeError)]
     ++ diagnostics MoreSamples.bad_stream)%list.
Proof.
  apply (undecodable_payload_fails_after_header MoreSamples.bad_stream
           [("body", Stream (Ok [xc3; x28]))] [xc3; x28]).
  - unfold converse_called, called. vm_compute. tauto.
  - exists Samples.denied. reflexivity.
  - reflexivity.
  - reflexivity.
  - reflexivity.
Defined.

(** ** The region, as the run uses it *)


